(** * Quiz site generator (src/main.js): shallow embedding and properties

    The program reads an index manifest, validates its entries, checks each
    referenced quiz file, and writes an index page, one page per quiz and two
    fixed assets.  The embedding follows src/main.js function by function:

    - JavaScript values coming out of [JSON.parse] are the inductive [value];
      objects are finite maps from property names to values.
    - Exceptions are explicit: a computation yields [Ok a] or [Throw e];
      [try]/[catch] is [M.try_catch].
    - The file system is the state threaded by the monad [M], which also
      collects the [fs.writeFile] calls made.

    Modelling choices for what lies outside the source file:
    - strings are sequences of bytes; [endsWith] and [replace] are only used
      with ASCII patterns;
    - a number is kept as its decimal rendering ([String(n)]), which is all the
      program observes of it besides truthiness;
    - the text of a file is either the JSON serialisation of a value or some
      text that [JSON.parse] rejects; every text the program writes itself
      (HTML, CSS, JS, each starting with a line break and markup) is of the
      second kind;
    - the program runs in the root directory, where [..] leads nowhere else:
      this is exact for every path that stays inside the run directory;
    - directories are not stored: a directory is there when the file system
      holds something inside it.  [fs.writeFile] fails when a directory on
      the way to its path is missing, which is what happens to the page of a
      quiz file whose name has a directory part, since the program creates
      [dist] only;
    - the run directory is writable and nothing but a directory is in the
      place of [dist]: [fs.mkdir] succeeds, and [dist] is there for every
      write of a run;
    - of a failed operation only the error class is kept; console output is
      not recorded, but the messages are still evaluated where the source
      builds them.

    The file has three parts: the embedding of the program, the vocabulary in
    which the properties are stated, and the lemmas and theorems. *)

From Stdlib Require Import Ascii.
From stdpp Require Import gmap strings list fin_maps.

(** ** Exceptions *)

Inductive error := TypeError | SyntaxError | IOError.

Inductive result (A : Type) :=
| Ok (a : A)
| Throw (e : error).
Arguments Ok {A} a.
Arguments Throw {A} e.

Module R.
Definition bind {A B} (r : result A) (k : A -> result B) : result B :=
  match r with
  | Ok a => k a
  | Throw e => Throw e
  end.

(** [a && b] on computations: [b] is only evaluated when [a] is true. *)
Definition and_then (a b : result bool) : result bool :=
  bind a (fun x => if x then b else Ok false).

(** [a || b] on computations: [b] is only evaluated when [a] is false. *)
Definition or_else (a b : result bool) : result bool :=
  bind a (fun x => if x then Ok true else b).

(** [Array.prototype.map] with a callback that may throw. *)
Fixpoint map {A B} (f : A -> result B) (l : list A) : result (list B) :=
  match l with
  | [] => Ok []
  | x :: r =>
      bind (f x) (fun y => bind (map f r) (fun ys => Ok (y :: ys)))
  end.

(** [Array.prototype.filter] with a predicate that may throw. *)
Fixpoint filter {A} (p : A -> result bool) (l : list A) : result (list A) :=
  match l with
  | [] => Ok []
  | x :: r =>
      bind (p x) (fun b =>
      bind (filter p r) (fun ys => Ok (if b then x :: ys else ys)))
  end.
End R.

Declare Scope result_scope.
Delimit Scope result_scope with R.
Notation "'let?' x ':=' r 'in' k" := (R.bind r (fun x => k))
  (at level 10, x name, r at level 100, k at level 200) : result_scope.
Infix "&&?" := R.and_then (at level 40, left associativity) : result_scope.
Infix "||?" := R.or_else (at level 50, left associativity) : result_scope.

(** ** Strings *)

Module Str.
Definition dq : string := String "034"%char EmptyString.
Definition nl : string := String "010"%char EmptyString.

Fixpoint drop (n : nat) (s : string) : string :=
  match n, s with
  | S n', String _ s' => drop n' s'
  | _, _ => s
  end.

(** [s.endsWith(suffix)]: compare the last [length suffix] characters. *)
Definition endsWith (s suffix : string) : bool :=
  let n := String.length s in
  let k := String.length suffix in
  if decide (k <= n) then bool_decide (drop (n - k) s = suffix) else false.

(** [s.replace(pat, rep)] with a string pattern: only the first occurrence
    of [pat] is replaced.  ([rep] holds no [$], so it is inserted as is.) *)
Fixpoint replace (pat rep s : string) : string :=
  if String.prefix pat s then rep +:+ drop (String.length pat) s
  else match s with
       | EmptyString => EmptyString
       | String c s' => String c (replace pat rep s')
       end.

(** [parts.join(sep)] on an array of strings. *)
Definition join (sep : string) (parts : list string) : string :=
  String.concat sep parts.

(** [s.split(sep)] for a one-character separator. *)
Fixpoint split (sep : ascii) (s : string) : list string :=
  match s with
  | EmptyString => [EmptyString]
  | String c s' =>
      if decide (c = sep) then EmptyString :: split sep s'
      else match split sep s' with
           | [] => [String c EmptyString]
           | w :: ws => String c w :: ws
           end
  end.

(** [t] occurs in [s]. *)
Definition includes (s t : string) : Prop :=
  exists pre post, s = pre +:+ t +:+ post.
End Str.

(** ** JavaScript values *)

(** What [JSON.parse] produces, plus [undefined], which reading a missing
    property yields.  A number carries its rendering [String(n)]. *)
#[warnings="-register-all"] Inductive value :=
| JUndefined
| JNull
| JBool (b : bool)
| JNum (n : string)
| JStr (s : string)
| JArr (items : list value)
| JObj (props : gmap string value).

Module Js.
Definition typeof (v : value) : string :=
  match v with
  | JUndefined => "undefined"
  | JBool _ => "boolean"
  | JNum _ => "number"
  | JStr _ => "string"
  | JNull | JArr _ | JObj _ => "object"
  end.

Definition isArray (v : value) : bool :=
  match v with JArr _ => true | _ => false end.

Definition is_null (v : value) : bool :=
  match v with JNull => true | _ => false end.

(** [!!v]: [undefined], [null], [false], zero, [NaN] and the empty string
    are falsy. *)
Definition truthy (v : value) : bool :=
  match v with
  | JUndefined | JNull => false
  | JBool b => b
  | JNum n => negb (bool_decide (n = "0")) && negb (bool_decide (n = "NaN"))
  | JStr s => negb (bool_decide (s = ""))
  | JArr _ | JObj _ => true
  end.

(** [v.k] for the property names the program reads ([file], [title],
    [questions], [question], [answers], [answer], [correct]): none of them
    is inherited from a prototype, so only an object's own properties
    count; reading a property of [null] or [undefined] throws. *)
Definition get (v : value) (k : string) : result value :=
  match v with
  | JUndefined | JNull => Throw TypeError
  | JObj props => Ok (default JUndefined (props !! k))
  | _ => Ok JUndefined
  end.

(** [k in v], for the same property names; the right operand must be an
    object. *)
Definition has (k : string) (v : value) : result bool :=
  match v with
  | JObj props => Ok (bool_decide (is_Some (props !! k)))
  | JArr _ => Ok false
  | _ => Throw TypeError
  end.

(** [String(v)] as a template literal applies it.  An array joins its
    elements with commas, [null] and [undefined] elements counting as empty;
    an object prints as [[object Object]] unless it has an own [toString]
    property, which (coming from JSON) is not callable. *)
Fixpoint toString (v : value) : result string :=
  match v with
  | JUndefined => Ok "undefined"
  | JNull => Ok "null"
  | JBool true => Ok "true"
  | JBool false => Ok "false"
  | JNum n => Ok n
  | JStr s => Ok s
  | JArr items =>
      let element (x : value) : result string :=
        match x with
        | JUndefined | JNull => Ok ""
        | _ => toString x
        end in
      (let? parts :=
         (fix each (l : list value) : result (list string) :=
            match l with
            | [] => Ok []
            | x :: r =>
                let? s := element x in
                let? ss := each r in
                Ok (s :: ss)
            end) items in
       Ok (Str.join "," parts))%R
  | JObj props =>
      match props !! "toString" with
      | Some _ => Throw TypeError
      | None => Ok "[object Object]"
      end
  end.

(** [prefix + v] with a string on the left. *)
Definition concat (prefix : string) (v : value) : result string :=
  (let? s := toString v in Ok (prefix +:+ s))%R.

(** [v.replace(pat, rep)]: only strings have the method. *)
Definition replace (v : value) (pat rep : string) : result string :=
  match v with
  | JStr s => Ok (Str.replace pat rep s)
  | _ => Throw TypeError
  end.

(** [v.endsWith(suffix)]. *)
Definition endsWith (v : value) (suffix : string) : result bool :=
  match v with
  | JStr s => Ok (Str.endsWith s suffix)
  | _ => Throw TypeError
  end.

Definition obj (kvs : list (string * value)) : value :=
  JObj (list_to_map kvs).
End Js.

(** ** Paths (node:path) *)

Module Path.
(** Walk the segments of a path, keeping the directories entered so far
    (innermost first): empty and [.] segments stay in place and [..] leaves
    the innermost directory. *)
Fixpoint walk (stack segs : list string) : list string :=
  match segs with
  | [] => stack
  | seg :: rest =>
      if decide (seg = "" \/ seg = ".") then walk stack rest
      else if decide (seg = "..") then walk (tail stack) rest
      else walk (seg :: stack) rest
  end.

Definition normalize (p : string) : string :=
  Str.join "/" (rev (walk [] (Str.split "/" p))).

(** [path.resolve(p)]: the absolute, normalised path; the working
    directory is the root. *)
Definition resolve (p : string) : string := "/" +:+ normalize p.

(** [path.join(a, b)] for relative paths that do not climb above their
    start. *)
Definition join (a b : string) : string := normalize (a +:+ "/" +:+ b).

(** The directory a path lies in, as the segments that lead to it from the
    root: [dist/sub/a.html] lies in [["dist"; "sub"]]. *)
Definition directory (p : string) : list string :=
  removelast (rev (walk [] (Str.split "/" p))).

(** The directories that opening a path goes through, in turn.  Unlike
    [resolve], which works on the text of the path, the system looks up each
    directory it enters, so that [dist/sub/../a.html] needs [dist/sub]; the
    last segment names the file. *)
Fixpoint crossed (stack segs : list string) : list (list string) :=
  match segs with
  | [] => []
  | seg :: rest =>
      if decide (seg = "" \/ seg = ".") then crossed stack rest
      else if decide (seg = "..") then crossed (tail stack) rest
      else match rest with
           | [] => []
           | _ => rev (seg :: stack) :: crossed (seg :: stack) rest
           end
  end.
End Path.

(** ** The world: files and writes *)

(** The text of a file: the JSON serialisation of [v], or text that is not
    JSON. *)
Inductive content :=
| Json (v : value)
| Raw (text : string).

(** What a path leads to: a regular file, or something that exists but
    cannot be read as one (a file without read permission).  Directories
    are not nodes: see [has_dir]. *)
Inductive node :=
| Unreadable
| File (c : content).

(** The file system maps resolved paths to nodes. *)
Abbreviation disk := (gmap string node).

(** What running a computation gives: its result, the file system it
    leaves, and the [fs.writeFile] calls it made, oldest first. *)
Record run (A : Type) := Run {
  returned : result A;
  files : disk;
  written : list (string * string)
}.
Arguments Run {A} returned files written.
Arguments returned {A} r.
Arguments files {A} r.
Arguments written {A} r.

Definition M (A : Type) : Type := disk -> run A.

Module M.
Definition ret {A} (a : A) : M A := fun fs => Run (Ok a) fs [].

Definition lift {A} (r : result A) : M A := fun fs => Run r fs [].

(** Run [k] after a computation that wrote [log] before it. *)
Definition after {A} (log : list (string * string)) (r : run A) : run A :=
  Run (returned r) (files r) (log ++ written r).

Definition bind {A B} (m : M A) (k : A -> M B) : M B :=
  fun fs =>
    let r := m fs in
    match returned r with
    | Ok a => after (written r) (k a (files r))
    | Throw e => Run (Throw e) (files r) (written r)
    end.

(** [try { body } catch (error) { handler }] *)
Definition try_catch {A} (body : M A) (handler : error -> M A) : M A :=
  fun fs =>
    let r := body fs in
    match returned r with
    | Ok a => r
    | Throw e => after (written r) (handler e (files r))
    end.
End M.

Declare Scope io_scope.
Delimit Scope io_scope with M.
Notation "'let*' x ':=' m 'in' k" := (M.bind m (fun x => k))
  (at level 10, x name, m at level 100, k at level 200) : io_scope.
Notation "m ';;' k" := (M.bind m (fun _ => k))
  (at level 100, k at level 200, right associativity) : io_scope.

Definition fs_access (p : string) : M unit :=
  fun fs =>
    match fs !! Path.resolve p with
    | Some _ => Run (Ok tt) fs []
    | None => Run (Throw IOError) fs []
    end.

Definition fs_readFile (p : string) : M content :=
  fun fs =>
    match fs !! Path.resolve p with
    | Some (File c) => Run (Ok c) fs []
    | Some Unreadable | None => Run (Throw IOError) fs []
    end.

(** The directories of a file system, each given by the segments that lead
    to it: the run directory, [dist] (see [fs_mkdir]), and every directory
    that leads to something the file system holds. *)
Definition has_dir (fs : disk) (dir : list string) : Prop :=
  dir = [] \/ dir = ["dist"] \/
  exists key, is_Some (fs !! key) /\ dir `prefix_of` Path.directory key.

#[global] Instance has_dir_dec fs dir : Decision (has_dir fs dir).
Proof.
  destruct (decide (dir = [] \/ dir = ["dist"] \/
    map_Exists (fun key _ => dir `prefix_of` Path.directory key) fs))
    as [Hyes | Hno]; [left | right]; unfold has_dir, map_Exists in *.
  - destruct Hyes as [?|[?|(key & x & Hkey & Hdir)]]; eauto 6.
  - intros [?|[?|(key & [x Hkey] & Hdir)]]; apply Hno; eauto 6.
Defined.

(** Every directory on the way to [p] is there. *)
Definition reachable (fs : disk) (p : string) : Prop :=
  Forall (has_dir fs) (Path.crossed [] (Str.split "/" p)).

#[global] Instance reachable_dec fs p : Decision (reachable fs p).
Proof. unfold reachable. apply _. Defined.

(** [fs.mkdir(p, { recursive: true })].  The program calls it with [dist]
    only, before each of its writes except that of the index page, which
    [main] makes after the assets.  The call succeeds, and [has_dir] has
    [dist] among the directories throughout. *)
Definition fs_mkdir (p : string) : M unit := M.ret tt.

(** [fs.writeFile(p, text)] creates or replaces the file; it fails (ENOENT)
    when a directory on the way to [p] does not exist. *)
Definition fs_writeFile (p text : string) : M unit :=
  fun fs =>
    if decide (reachable fs p)
    then Run (Ok tt) (<[Path.resolve p := File (Raw text)]> fs) [(p, text)]
    else Run (Throw IOError) fs [].

Definition JSON_parse (c : content) : result value :=
  match c with
  | Json v => Ok v
  | Raw _ => Throw SyntaxError
  end.

(** [console.log], [console.warn] and [console.error]: the message is
    evaluated by the caller (which may throw); what is printed is not kept. *)
Definition console_log (message : string) : M unit := M.ret tt.

(** ** The fixed texts of src/main.js *)

(** The index page before the list items (main.js, lines 45 to 62). *)
Definition indexHtml_head : string :=
  "
    <!DOCTYPE html>
    <html lang=" +:+ Str.dq +:+ "en" +:+ Str.dq +:+ ">
        <head>
            <meta charset=" +:+ Str.dq +:+ "UTF-8" +:+ Str.dq +:+ ">
            <meta name=" +:+ Str.dq +:+ "viewport" +:+ Str.dq +:+ " content=" +:+ Str.dq +:+ "width=device-width, initial-scale=1.0" +:+ Str.dq +:+ ">
            <meta http-equiv=" +:+ Str.dq +:+ "X-UA-Compatible" +:+ Str.dq +:+ " content=" +:+ Str.dq +:+ "ie=edge" +:+ Str.dq +:+ ">
            <link rel=" +:+ Str.dq +:+ "stylesheet" +:+ Str.dq +:+ " href=" +:+ Str.dq +:+ "styles.css" +:+ Str.dq +:+ ">
            <title>Verkefni 1</title>
        </head>
        <body>
            <header>Verkefni 1 - Quiz Navigation</header>
            <main>
                <nav>
                    <a href=" +:+ Str.dq +:+ "index.html" +:+ Str.dq +:+ ">Home</a>
                </nav>
                <ul>
                    ".

(** The index page after the list items (lines 62 to 68). *)
Definition indexHtml_tail : string :=
  "
                </ul>
            </main>
            <script src=" +:+ Str.dq +:+ "script.js" +:+ Str.dq +:+ "></script>
        </body>
    </html>
    ".

(** A question card up to its heading text (lines 144 to 146). *)
Definition card_head : string :=
  "
                <div class=" +:+ Str.dq +:+ "card" +:+ Str.dq +:+ ">
                    <h2>".

(** Between the heading text and the answer items (lines 146 to 148). *)
Definition card_mid : string :=
  "</h2>
                    <ul>
                        ".

(** After the answer items (lines 151 to 154). *)
Definition card_tail : string :=
  "
                    </ul>
                </div>
            ".

(** An answer item up to its class attribute (lines 148 and 149). *)
Definition answer_head : string :=
  "
                            <li".

(** Between the class attribute and the answer text (lines 149 and 150). *)
Definition answer_mid : string :=
  ">
                                ".

(** After the answer text (lines 150 and 151). *)
Definition answer_tail : string :=
  "
                            </li>".

(** A quiz page up to its document title (lines 156 to 163). *)
Definition page_head : string :=
  "
            <!DOCTYPE html>
            <html lang=" +:+ Str.dq +:+ "en" +:+ Str.dq +:+ ">
                <head>
                    <meta charset=" +:+ Str.dq +:+ "UTF-8" +:+ Str.dq +:+ ">
                    <meta name=" +:+ Str.dq +:+ "viewport" +:+ Str.dq +:+ " content=" +:+ Str.dq +:+ "width=device-width, initial-scale=1.0" +:+ Str.dq +:+ ">
                    <link rel=" +:+ Str.dq +:+ "stylesheet" +:+ Str.dq +:+ " href=" +:+ Str.dq +:+ "styles.css" +:+ Str.dq +:+ ">
                    <title>".

(** Between the document title and the header link text (lines 163 to 166). *)
Definition page_mid1 : string :=
  "</title>
                </head>
                <body>
                    <header><a href=" +:+ Str.dq +:+ "./index.html" +:+ Str.dq +:+ ">".

(** Between the header link text and the cards (lines 166 to 168). *)
Definition page_mid2 : string :=
  "</a></header>
                    <main>
                        ".

(** After the cards (lines 168 to 172). *)
Definition page_tail : string :=
  "
                    </main>
                    <script src=" +:+ Str.dq +:+ "script.js" +:+ Str.dq +:+ "></script>
                </body>
            </html>".

(** The style sheet (lines 196 to 244). *)
Definition cssContent : string :=
  "
        body {
            font-family: 'Roboto', Arial, sans-serif;
            background-color: #f9f9f9;
            color: #333;
            margin: 0;
            padding: 20px;
        }

        header {
            background-color: #4caf50;
            padding: 20px;
            color: white;
            text-align: center;
            font-size: 1.8em;
        }

        main {
            max-width: 900px;
            margin: 20px auto;
            padding: 20px;
        }

        ul {
            list-style: none;
            padding: 0;
        }

        .card {
            background-color: #ffffff;
            box-shadow: 0 2px 8px rgba(0, 0, 0, 0.1);
            padding: 20px;
            border-radius: 8px;
            transition: transform 0.3s ease;
        }

        .card:hover {
            transform: translateY(-5px);
        }

        .card h2 {
            color: #4caf50;
        }

        .correct-answer {
            color: #2e7d32;
            font-weight: bold;
        }
        ".

(** The script (lines 262 to 268). *)
Definition jsContent : string :=
  "
        document.addEventListener(" +:+ Str.dq +:+ "DOMContentLoaded" +:+ Str.dq +:+ ", function () {
            const navBar = document.createElement(" +:+ Str.dq +:+ "nav" +:+ Str.dq +:+ ");
            navBar.innerHTML = '<a href=" +:+ Str.dq +:+ "index.html" +:+ Str.dq +:+ ">Home</a>';
            document.body.prepend(navBar);
        });
        ".

(** ** The program *)

Definition INDEX_PATH : string := "./data/index.json".
Definition DATA_PATH : string := "./data/".
Definition DIST_PATH : string := "./dist".

Open Scope io_scope.

(** [readJson] (lines 13 to 30). *)
Definition readJson (filePath : string) : M value :=
  console_log "Starting to read" ;;
  let* read :=
    M.try_catch
      (let* data := fs_readFile (Path.resolve filePath) in M.ret (Some data))
      (fun _ =>
         console_log ("Error reading file " +:+ filePath +:+ ":") ;;
         M.ret None) in
  match read with
  | None => M.ret JNull
  | Some data =>
      M.try_catch
        (let* parsed := M.lift (JSON_parse data) in M.ret parsed)
        (fun _ =>
           console_log "Error parsing data as JSON:" ;;
           M.ret JNull)
  end.

(** One list item of the index page (line 42). *)
Definition index_item (item : value) : result string :=
  (let? file := Js.get item "file" in
   let? href := Js.replace file ".json" ".html" in
   let? title := Js.get item "title" in
   let? text := Js.toString title in
   Ok ("<li><a href=" +:+ Str.dq +:+ href +:+ Str.dq +:+ ">" +:+ text
       +:+ "</a></li>" +:+ Str.nl))%R.

(** The loop of lines 40 to 43: [html += ...] for each item in turn. *)
Fixpoint index_items (html : string) (data : list value) : result string :=
  match data with
  | [] => Ok html
  | item :: rest =>
      (let? li := index_item item in index_items (html +:+ li) rest)%R
  end.

(** [writeHtml] (lines 37 to 70). *)
Definition writeHtml (data : list value) : M unit :=
  let indexHtmlFilePath := "dist/index.html" in
  let* html := M.lift (index_items "" data) in
  let indexHtmlContent := indexHtml_head +:+ html +:+ indexHtml_tail in
  fs_writeFile indexHtmlFilePath indexHtmlContent.

(** The predicate of the filter in lines 83 to 89. *)
Definition is_index_entry (entry : value) : result bool :=
  (Ok (bool_decide (Js.typeof entry = "object")) &&?
   Ok (negb (Js.is_null entry)) &&?
   (let? file := Js.get entry "file" in
    Ok (bool_decide (Js.typeof file = "string"))) &&?
   (let? title := Js.get entry "title" in
    Ok (bool_decide (Js.typeof title = "string"))) &&?
   (let? file := Js.get entry "file" in Js.endsWith file ".json"))%R.

(** [parseIndexJson] (lines 77 to 92); [None] is the [null] result. *)
Definition parseIndexJson (data : value) : M (option (list value)) :=
  match data with
  | JArr entries =>
      let* validFiles := M.lift (R.filter is_index_entry entries) in
      M.ret (Some validFiles)
  | _ =>
      console_log "Index data is not an array" ;;
      M.ret None
  end.

(** The condition of lines 104 to 109. *)
Definition is_corrupt (fileContent : value) : result bool :=
  (Ok (negb (bool_decide (Js.typeof fileContent = "object"))) ||?
   Ok (Js.is_null fileContent) ||?
   (let? present := Js.has "questions" fileContent in Ok (negb present)) ||?
   (let? questions := Js.get fileContent "questions" in
    Ok (Js.is_null questions)))%R.

(** [isValidJsonFile] (lines 99 to 119). *)
Definition isValidJsonFile (filePath : value) : M bool :=
  M.try_catch
    (let* target := M.lift (Js.concat DATA_PATH filePath) in
     fs_access (Path.resolve target) ;;
     let* source := M.lift (Js.concat DATA_PATH filePath) in
     let* fileContent := readJson source in
     let* corrupt := M.lift (is_corrupt fileContent) in
     if corrupt then
       let* message := M.lift (Js.concat "Skipping corrupt JSON file: " filePath) in
       console_log message ;;
       M.ret false
     else M.ret true)
    (fun _ =>
       let* message := M.lift (Js.concat "Skipping missing file: " filePath) in
       console_log message ;;
       M.ret false).

(** The callback of line 142. *)
Definition has_answers (q : value) : result bool :=
  (let? answers := Js.get q "answers" in Ok (Js.isArray answers))%R.

(** [questions.filter(...)] and [answers.map(...)]: the receiver must be an
    array. *)
Definition array_filter (p : value -> result bool) (v : value) : result (list value) :=
  match v with
  | JArr items => R.filter p items
  | _ => Throw TypeError
  end.

Definition array_map {B} (f : value -> result B) (v : value) : result (list B) :=
  match v with
  | JArr items => R.map f items
  | _ => Throw TypeError
  end.

(** One answer item (lines 148 to 151). *)
Definition answer_item (answer : value) : result string :=
  (let? correct := Js.get answer "correct" in
   let class :=
     if Js.truthy correct
     then " class=" +:+ Str.dq +:+ "correct-answer" +:+ Str.dq
     else "" in
   let? answer_text := Js.get answer "answer" in
   let? text := Js.toString answer_text in
   Ok (answer_head +:+ class +:+ answer_mid +:+ text +:+ answer_tail))%R.

(** One question card (lines 144 to 154). *)
Definition card (q : value) : result string :=
  (let? question := Js.get q "question" in
   let? heading := Js.toString question in
   let? answers := Js.get q "answers" in
   let? items := array_map answer_item answers in
   Ok (card_head +:+ heading +:+ card_mid +:+ Str.join Str.nl items
       +:+ card_tail))%R.

(** The page text of lines 156 to 172. *)
Definition page (title : value) (questionsHtml : string) : result string :=
  (let? title1 := Js.toString title in
   let? title2 := Js.toString title in
   Ok (page_head +:+ title1 +:+ page_mid1 +:+ title2 +:+ page_mid2
       +:+ questionsHtml +:+ page_tail))%R.

(** The condition of line 130. *)
Definition is_invalid_structure (fileContent : value) : result bool :=
  (Ok (negb (Js.truthy fileContent)) ||?
   Ok (negb (bool_decide (Js.typeof fileContent = "object"))) ||?
   (let? present := Js.has "title" fileContent in Ok (negb present)) ||?
   (let? present := Js.has "questions" fileContent in Ok (negb present)))%R.

(** The [try] block of [generateAllHtml] for one entry (lines 128 to 178);
    [continue] ends the block. *)
Definition generate_entry (entry : value) : M unit :=
  let* source :=
    M.lift (let? file := Js.get entry "file" in Js.concat DATA_PATH file)%R in
  let* fileContent := readJson source in
  let* invalid := M.lift (is_invalid_structure fileContent) in
  if invalid then
    let* message :=
      M.lift (let? file := Js.get entry "file" in
              Js.concat "Skipping invalid JSON structure in: " file)%R in
    console_log message
  else
    let* title := M.lift (Js.get fileContent "title") in
    let* questions := M.lift (Js.get fileContent "questions") in
    if negb (Js.truthy title) || negb (Js.isArray questions) then
      let* message :=
        M.lift (let? file := Js.get entry "file" in
                Js.concat "Skipping file due to missing fields: " file)%R in
      console_log message
    else
      let* validQuestions := M.lift (array_filter has_answers questions) in
      let* cards := M.lift (R.map card validQuestions) in
      let questionsHtml := Str.join Str.nl cards in
      let* htmlContent := M.lift (page title questionsHtml) in
      fs_mkdir "dist" ;;
      let* name :=
        M.lift (let? file := Js.get entry "file" in
                Js.replace file ".json" ".html")%R in
      let outputFilePath := "dist/" +:+ name in
      fs_writeFile outputFilePath htmlContent.

(** [generateAllHtml] (lines 125 to 184). *)
Fixpoint generateAllHtml (validFiles : list value) : M unit :=
  match validFiles with
  | [] => M.ret tt
  | entry :: rest =>
      M.try_catch
        (generate_entry entry)
        (fun _ =>
           let* message :=
             M.lift (let? file := Js.get entry "file" in
                     Js.concat "Error processing file: " file)%R in
           console_log message) ;;
      generateAllHtml rest
  end.

(** [generateCssFile] (lines 190 to 250). *)
Definition generateCssFile : M unit :=
  M.try_catch
    (fs_mkdir DIST_PATH ;;
     let cssFilePath := Path.join DIST_PATH "styles.css" in
     fs_writeFile cssFilePath cssContent ;;
     console_log ("CSS file generated: " +:+ cssFilePath))
    (fun _ => console_log "Error generating CSS file:").

(** [generateJsFile] (lines 256 to 274). *)
Definition generateJsFile : M unit :=
  M.try_catch
    (fs_mkdir DIST_PATH ;;
     let jsFilePath := Path.join DIST_PATH "script.js" in
     fs_writeFile jsFilePath jsContent ;;
     console_log ("JavaScript file generated: " +:+ jsFilePath))
    (fun _ => console_log "Error generating JavaScript file:").

(** The loop of lines 289 to 293: [validFiles.push(entry)] for each entry
    whose file is valid. *)
Fixpoint collect_valid (validFiles parsedJson : list value) : M (list value) :=
  match parsedJson with
  | [] => M.ret validFiles
  | entry :: rest =>
      let* file := M.lift (Js.get entry "file") in
      let* valid := isValidJsonFile file in
      collect_valid (if valid then validFiles ++ [entry] else validFiles) rest
  end.

(** [main] (lines 279 to 299). *)
Definition main : M unit :=
  let* indexJson := readJson INDEX_PATH in
  let* parsedJson := parseIndexJson indexJson in
  generateCssFile ;;
  generateJsFile ;;
  match parsedJson with
  | Some entries =>
      let* validFiles := collect_valid [] entries in
      writeHtml validFiles ;;
      generateAllHtml validFiles
  | None => console_log "Parsed JSON is null"
  end.

Close Scope io_scope.

(** ** Sample sites *)

Module Sample.
Definition entry (file title : string) : value :=
  Js.obj [("file", JStr file); ("title", JStr title)].

Definition answer (text : string) (correct : bool) : value :=
  Js.obj [("answer", JStr text); ("correct", JBool correct)].

(** The quiz of the specification's scenario. *)
Definition animals : value :=
  Js.obj [("title", JStr "Animals");
          ("questions", JArr [
             Js.obj [("question", JStr "Cat or dog?");
                     ("answers", JArr [answer "Cat" true; answer "Dog" false])]])].

(** A quiz whose [questions] is a string. *)
Definition oops : value :=
  Js.obj [("title", JStr "Quiz"); ("questions", JStr "oops")].



(** The same quiz with [null] in the answers of its complete question. *)
Definition null_questions : list value :=
  [Js.obj [("question", JStr "Left out"); ("answers", JStr "none")];
   Js.obj [("question", JStr "Kept"); ("answers", JArr [JNull])]].

Definition null_answer : value :=
  Js.obj [("title", JStr "Nulls"); ("questions", JArr null_questions)].

Definition site : disk :=
  {[ "/data/index.json" := File (Json (JArr [entry "a.json" "Animals"]));
     "/data/a.json" := File (Json animals) ]}.

Definition oops_site : disk :=
  {[ "/data/index.json" := File (Json (JArr [entry "q.json" "Quiz"]));
     "/data/q.json" := File (Json oops) ]}.

(** A manifest with a complete quiz, a quiz the renderer skips, an entry
    whose file is missing and an element that is no entry. *)
Definition mixed_manifest : list value :=
  [entry "a.json" "Animals"; entry "q.json" "Quiz"; entry "gone.json" "Gone";
   JStr "notes"].

Definition mixed_site : disk :=
  {[ "/data/index.json" := File (Json (JArr mixed_manifest));
     "/data/a.json" := File (Json animals);
     "/data/q.json" := File (Json oops) ]}.



(** The quiz with [null] among its answers, followed by the quiz of the
    scenario. *)
Definition nulls_first_site : disk :=
  {[ "/data/index.json" :=
       File (Json (JArr [entry "n.json" "Nulls"; entry "a.json" "Animals"]));
     "/data/n.json" := File (Json null_answer);
     "/data/a.json" := File (Json animals) ]}.

(** A quiz with [null] among its answers and an empty title. *)
Definition untitled : value :=
  Js.obj [("title", JStr ""); ("questions", JArr null_questions)].

Definition untitled_site : disk :=
  {[ "/data/index.json" := File (Json (JArr [entry "u.json" "Untitled"]));
     "/data/u.json" := File (Json untitled) ]}.

(** A quiz file in a directory of its own under [data/]. *)
Definition nested_site : disk :=
  {[ "/data/index.json" := File (Json (JArr [entry "sub/a.json" "Animals"]));
     "/data/sub/a.json" := File (Json animals) ]}.

(** The same site after someone created [dist/sub/] and put a file there. *)
Definition nested_site_with_dir : disk :=
  <["/dist/sub/notes.txt" := File (Raw "notes")]> nested_site.

(** The sample quiz, named by a path that goes through a directory [sub]
    and back. *)
Definition detour_site : disk :=
  {[ "/data/index.json" := File (Json (JArr [entry "sub/../a.json" "Animals"]));
     "/data/a.json" := File (Json animals) ]}.


(** The sample quiz listed twice. *)
Definition twice_site : disk :=
  {[ "/data/index.json" :=
       File (Json (JArr [entry "a.json" "Animals"; entry "a.json" "Animals"]));
     "/data/a.json" := File (Json animals) ]}.

(** A quiz file whose name holds [.json] twice. *)
Definition double_site : disk :=
  {[ "/data/index.json" := File (Json (JArr [entry "a.json.json" "Animals"]));
     "/data/a.json.json" := File (Json animals) ]}.
End Sample.

(** * Vocabulary of the properties *)

(** ** Decidable equality of results *)

#[global] Instance error_eq_dec : EqDecision error.
Proof. solve_decision. Defined.

#[global] Instance result_eq_dec `{EqDecision A} : EqDecision (result A).
Proof. solve_decision. Defined.

(** ** Index entries *)

Definition is_string (v : value) : bool :=
  match v with JStr _ => true | _ => false end.

Definition is_object (v : value) : bool :=
  match v with JNull | JArr _ | JObj _ => true | _ => false end.

#[global] Instance ends_with_dec (s suffix : string) :
  Decision (exists stem, s = stem +:+ suffix).
Proof.
  induction s as [|c s IH].
  - destruct (decide (suffix = "")) as [-> | Hne].
    + left. by exists "".
    + right. intros [[|c stem] Heq]; [by apply Hne | discriminate Heq].
  - destruct (decide (String c s = suffix)) as [<- | Hne].
    + left. by exists "".
    + destruct IH as [Hyes | Hno].
      * left. destruct Hyes as [stem ->]. by exists (String c stem).
      * right. intros [[|c' stem] Heq]; [by apply Hne|].
        injection Heq as _ Heq. apply Hno. by exists stem.
Defined.

(** An index entry as the specification words it: an object with a string
    [file] ending in [.json] and a string [title]. *)
Definition well_formed_entry (entry : value) : Prop :=
  exists props file title,
    entry = JObj props /\
    props !! "file" = Some (JStr file) /\
    props !! "title" = Some (JStr title) /\
    exists stem, file = stem +:+ ".json".

#[global] Instance well_formed_entry_dec entry : Decision (well_formed_entry entry).
Proof.
  unfold well_formed_entry.
  destruct entry as [| | | | | |props];
    try (right; intros (? & ? & ? & ? & _); discriminate).
  destruct (props !! "file") as [[| | | |file| |]|] eqn:Hfile;
    try (right; intros (? & ? & ? & [= <-] & ? & _); congruence).
  destruct (props !! "title") as [[| | | |title| |]|] eqn:Htitle;
    try (right; intros (? & ? & ? & [= <-] & _ & ? & _); congruence).
  destruct (decide (exists stem, file = stem +:+ ".json")) as [Hjson | Hjson].
  - left. by exists props, file, title.
  - right. intros (? & ? & ? & [= <-] & ? & _ & ?). by simplify_eq.
Defined.

(** [v.k], or [undefined] where reading it throws. *)
Definition field (v : value) (k : string) : value :=
  match Js.get v k with Ok x => x | Throw _ => JUndefined end.

(** The [file] and the [title] of a validated entry. *)
Definition file_name (entry : value) : string :=
  match field entry "file" with JStr file => file | _ => "" end.

Definition title_text (entry : value) : string :=
  match field entry "title" with JStr title => title | _ => "" end.

(** The list item that line 42 builds for a validated entry: its href is
    the file name after [replace], its text the title. *)
Definition link (entry : value) : string :=
  "<li><a href=" +:+ Str.dq +:+ Str.replace ".json" ".html" (file_name entry)
  +:+ Str.dq +:+ ">" +:+ title_text entry +:+ "</a></li>" +:+ Str.nl.

Definition links (data : list value) : string :=
  foldr (fun entry html => link entry +:+ html) "" data.

(** The text of the index page for validated entries. *)
Definition index_page (data : list value) : string :=
  indexHtml_head +:+ links data +:+ indexHtml_tail.

(** ** Files *)

(** A file name without a directory part: it holds no [/]. *)
Definition flat (file : string) : Prop := Str.split "/" file = [file].

(** A segment that [Path.walk] keeps: neither empty, nor [.], nor [..]. *)
Definition kept (w : string) : Prop := ~ (w = "" \/ w = ".") /\ w <> "..".

(** Where the quiz file named [file] lives on the file system. *)
Definition data_key (file : string) : string :=
  Path.resolve (Path.resolve (DATA_PATH +:+ file)).

(** The value [readJson] returns for a path on a given file system. *)
Definition load (fs : disk) (filePath : string) : value :=
  match fs !! Path.resolve (Path.resolve filePath) with
  | Some (File (Json v)) => v
  | _ => JNull
  end.

(** The quiz document [readJson] finds for [file]. *)
Definition document (fs : disk) (file : string) : value :=
  load fs (DATA_PATH +:+ file).

(** What the condition of lines 104 to 109 decides. *)
Definition corrupt (fileContent : value) : bool :=
  match fileContent with
  | JObj props =>
      match props !! "questions" with
      | Some questions => Js.is_null questions
      | None => true
      end
  | _ => true
  end.

(** What [isValidJsonFile] answers for a file name. *)
Definition valid_file (fs : disk) (file : string) : bool :=
  bool_decide (is_Some (fs !! data_key file)) && negb (corrupt (document fs file)).

Definition css_path : string := "dist/styles.css".
Definition js_path : string := "dist/script.js".
Definition index_path : string := "dist/index.html".

(** The path [generateAllHtml] writes the page of [file] to (line 176). *)
Definition output_path (file : string) : string :=
  "dist/" +:+ Str.replace ".json" ".html" file.

(** The file system once the two assets are written. *)
Definition assets (fs : disk) : disk :=
  <[Path.resolve js_path := File (Raw jsContent)]>
    (<[Path.resolve css_path := File (Raw cssContent)]> fs).

(** ** Entries that pass both validators *)

(** The entry passes the filter of [parseIndexJson]. *)
Definition passes_index (entry : value) : Prop :=
  is_index_entry entry = Ok true.

(** [isValidJsonFile(entry.file)] answers [true]. *)
Definition passes_file_check (fs : disk) (entry : value) : Prop :=
  match Js.get entry "file" with
  | Ok file => returned (isValidJsonFile file fs) = Ok true
  | Throw _ => False
  end.

Definition valid_entry (fs : disk) (entry : value) : Prop :=
  passes_index entry /\ passes_file_check fs entry.

#[global] Instance valid_entry_dec fs entry : Decision (valid_entry fs entry).
Proof.
  unfold valid_entry, passes_index, passes_file_check.
  destruct (Js.get entry "file"); apply _.
Defined.

(** The manifest entries that pass both validators, in manifest order. *)
Definition valid_entries (fs : disk) (entries : list value) : list value :=
  filter (valid_entry fs) entries.

(** The same entries, as [main] computes them. *)
Definition chosen (fs : disk) (entries : list value) : list value :=
  filter (fun entry => valid_file fs (file_name entry) = true)
    (filter well_formed_entry entries).

(** ** The page renderer *)

(** Lines 130 to 172 as a function of the document read: [Ok None] when the
    renderer skips the document ([continue]), [Ok (Some html)] when it builds
    a page, [Throw] when building the page raises an error. *)
Definition render (fileContent : value) : result (option string) :=
  (let? invalid := is_invalid_structure fileContent in
   if invalid then Ok None
   else
     let? title := Js.get fileContent "title" in
     let? questions := Js.get fileContent "questions" in
     if negb (Js.truthy title) || negb (Js.isArray questions) then Ok None
     else
       let? validQuestions := array_filter has_answers questions in
       let? cards := R.map card validQuestions in
       let? htmlContent := page title (Str.join Str.nl cards) in
       Ok (Some htmlContent))%R.

(** The page of a document that passed the checks of lines 130 and 137. *)
Definition build (title : value) (questions : list value) : result (option string) :=
  (let? validQuestions := R.filter has_answers questions in
   let? cards := R.map card validQuestions in
   let? htmlContent := page title (Str.join Str.nl cards) in
   Ok (Some htmlContent))%R.

(** What processing one entry does, given the outcome of rendering. *)
Definition emit (file : string) (outcome : result (option string)) : M unit :=
  match outcome with
  | Ok (Some html) => fs_writeFile (output_path file) html
  | Ok None => M.ret tt
  | Throw e => M.lift (Throw e)
  end.

(** One turn of the loop of [generateAllHtml]: the page is written when it
    is built and the directories on the way to it are there; an error is
    caught and the loop goes on. *)
Definition process (file : string) (fs : disk) : run unit :=
  match render (document fs file) with
  | Ok (Some html) =>
      if decide (reachable fs (output_path file))
      then Run (Ok tt)
             (<[Path.resolve (output_path file) := File (Raw html)]> fs)
             [(output_path file, html)]
      else Run (Ok tt) fs []
  | _ => Run (Ok tt) fs []
  end.

(** No page is written over a quiz file that one of the entries names. *)
Definition outputs_apart (entries : list value) : Prop :=
  Forall (fun entry =>
    Forall (fun other =>
      Path.resolve (output_path (file_name entry)) <> data_key (file_name other))
      entries) entries.

(** ** Questions and answers *)

(** [null] and [undefined] have no properties. *)
Definition nullish (v : value) : Prop := v = JNull \/ v = JUndefined.

Definition is_nullish (v : value) : bool :=
  match v with JNull | JUndefined => true | _ => false end.

(** [v] converts to a string. *)
Definition is_printable (v : value) : bool :=
  match Js.toString v with Ok _ => true | Throw _ => false end.

(** The question has an array as its [answers]. *)
Definition answers_array (q : value) : Prop :=
  exists items, Js.get q "answers" = Ok (JArr items).

#[global] Instance answers_array_dec q : Decision (answers_array q).
Proof.
  unfold answers_array.
  destruct (Js.get q "answers") as [[| | | | |items|]|];
    try (right; by intros [? [=]]).
  left. by exists items.
Defined.

(** An answer that can be rendered: not [null], with a text that converts
    to a string. *)
Definition answer_ok (answer : value) : bool :=
  negb (is_nullish answer) && is_printable (field answer "answer").

(** A question that raises no error: it is not [null] and, when its
    [answers] is an array, its text converts to a string and every answer
    can be rendered. *)
Definition question_ok (q : value) : bool :=
  negb (is_nullish q) &&
  match field q "answers" with
  | JArr items => is_printable (field q "question") && forallb answer_ok items
  | _ => true
  end.

(** The renderer accepts the document stored for [entry]: it is an object
    with a truthy [title] and an array of [questions]. *)
Definition accepted (fs : disk) (entry : value) (file : string)
    (title : value) (questions : list value) : Prop :=
  Js.get entry "file" = Ok (JStr file) /\
  exists props,
    fs !! data_key file = Some (File (Json (JObj props))) /\
    props !! "title" = Some title /\
    Js.truthy title = true /\
    props !! "questions" = Some (JArr questions).

(** The page of [entry] is built without an error: the document stored for
    it is an object with a truthy [title] that converts to a string and an
    array of [questions], none of which raises an error. *)
Definition renders (fs : disk) (entry : value) : bool :=
  match fs !! data_key (file_name entry) with
  | Some (File (Json (JObj props))) =>
      match props !! "title", props !! "questions" with
      | Some title, Some (JArr questions) =>
          Js.truthy title && is_printable title && forallb question_ok questions
      | _, _ => false
      end
  | _ => false
  end.

(** The page of [entry] is built and the directories on the way to it are
    there. *)
Definition page_expected (fs : disk) (entry : value) : Prop :=
  renders fs entry = true /\ reachable fs (output_path (file_name entry)).

#[global] Instance page_expected_dec fs entry : Decision (page_expected fs entry).
Proof. unfold page_expected. apply _. Defined.


(** Some question of the document stored for [file] has [null] or
    [undefined] among the elements of its [answers] array. *)
Definition has_null_answer (fs : disk) (file : string) : Prop :=
  exists props questions q items answer,
    fs !! data_key file = Some (File (Json (JObj props))) /\
    props !! "questions" = Some (JArr questions) /\
    q ∈ questions /\
    Js.get q "answers" = Ok (JArr items) /\
    answer ∈ items /\
    nullish answer.

(** Claim C10 as the specification states it: with such an answer,
    rendering the document fails inside the [try] block. *)
Definition rendering_fails (fs : disk) (entry : value) : Prop :=
  exists e, generate_entry entry fs = Run (Throw e) fs [].

(** ** The writes of a run *)

(** The run wrote the two assets, then the index page, then [pages]. *)
Definition wrote (fs : disk) (index : string) (pages : list (string * string)) : Prop :=
  written (main fs)
  = [(css_path, cssContent); (js_path, jsContent); (index_path, index)] ++ pages.

(** The files that a list of writes leaves: a path written twice is one
    file. *)
Definition page_files (pages : list (string * string)) : gset string :=
  list_to_set (map (fun w => Path.resolve w.1) pages).

(** Claim C1 as the specification states it: the quiz pages written are as
    many as the entries that pass both validators. *)
Definition pages_match_valid_entries (fs : disk) (entries : list value) : Prop :=
  exists index pages,
    wrote fs index pages /\
    size (page_files pages) = length (valid_entries fs entries).

(** ** The inputs of a run *)

(** The entries of the manifest that [parseIndexJson] keeps: the files they
    name are the quiz files of the site. *)
Definition manifest_entries (fs : disk) : list value :=
  match load fs INDEX_PATH with
  | JArr entries => filter well_formed_entry entries
  | _ => []
  end.

(** Two file systems hold the same inputs: the same manifest and the same
    quiz files. *)
Definition same_inputs (fs1 fs2 : disk) : Prop :=
  fs1 !! Path.resolve INDEX_PATH = fs2 !! Path.resolve INDEX_PATH /\
  Forall (fun entry =>
    fs1 !! data_key (file_name entry) = fs2 !! data_key (file_name entry))
    (manifest_entries fs1).

(** For each quiz file, the directories on the way to its page are there
    in both file systems or in neither. *)
Definition same_page_dirs (fs1 fs2 : disk) : Prop :=
  Forall (fun entry =>
    reachable fs1 (output_path (file_name entry)) <->
    reachable fs2 (output_path (file_name entry)))
    (manifest_entries fs1).


(** * Properties *)

(** ** The primitives on examples *)

Example endsWith_geo : Str.endsWith "geo.json" ".json" = true.
Proof. reflexivity. Qed.

Example endsWith_short : Str.endsWith "json" ".json" = false.
Proof. reflexivity. Qed.

Example replace_geo : Str.replace ".json" ".html" "geo.json" = "geo.html".
Proof. reflexivity. Qed.

Example split_path : Str.split "/" "./data/a.json" = ["."; "data"; "a.json"].
Proof. reflexivity. Qed.

Example toString_nested :
  Js.toString (JArr [JNum "1"; JNull; JArr [JStr "a"; JBool true]]) = Ok "1,,a,true".
Proof. reflexivity. Qed.

Example toString_shadowed :
  Js.toString (Js.obj [("toString", JStr "x")]) = Throw TypeError.
Proof. by vm_compute. Qed.

Example resolve_data : Path.resolve "./data/../data//a.json" = "/data/a.json".
Proof. reflexivity. Qed.

Example join_dist : Path.join "./dist" "styles.css" = "dist/styles.css".
Proof. reflexivity. Qed.

Example directory_nested : Path.directory "/dist/sub/a.html" = ["dist"; "sub"].
Proof. reflexivity. Qed.

Example crossed_nested :
  Path.crossed [] (Str.split "/" "dist/sub/a.html") = [["dist"]; ["dist"; "sub"]].
Proof. reflexivity. Qed.

Example crossed_detour :
  Path.crossed [] (Str.split "/" "dist/sub/../a.html") = [["dist"]; ["dist"; "sub"]].
Proof. reflexivity. Qed.

Example crossed_flat : Path.crossed [] (Str.split "/" "dist/./a.html") = [["dist"]].
Proof. reflexivity. Qed.

Example has_dir_data : has_dir Sample.nested_site ["data"; "sub"].
Proof. apply (bool_decide_unpack _). by vm_compute. Qed.

Example has_dir_missing : ~ has_dir Sample.nested_site ["dist"; "sub"].
Proof. apply (bool_decide_eq_false_1 _). by vm_compute. Qed.

Example has_dir_made : has_dir Sample.nested_site_with_dir ["dist"; "sub"].
Proof. apply (bool_decide_unpack _). by vm_compute. Qed.

(** A name that goes through [sub] and back is read at [data/a.json], where
    [path.resolve] puts it, but its page needs [dist/sub]: the entry is
    valid and linked, and no page is written. *)
Example detour_run_files :
  valid_entries Sample.detour_site [Sample.entry "sub/../a.json" "Animals"]
  = [Sample.entry "sub/../a.json" "Animals"] /\
  map fst (written (main Sample.detour_site))
  = ["dist/styles.css"; "dist/script.js"; "dist/index.html"].
Proof. split; by vm_compute. Qed.

Example sample_run_files :
  map fst (written (main Sample.site))
  = ["dist/styles.css"; "dist/script.js"; "dist/index.html"; "dist/a.html"].
Proof. by vm_compute. Qed.

(** ** Strings *)

Section strings.
Implicit Types s t p : string.

Lemma append_nil_l s : "" +:+ s = s.
Proof. reflexivity. Qed.

Lemma append_cons c s t : String c s +:+ t = String c (s +:+ t).
Proof. reflexivity. Qed.

Lemma append_nil_r s : s +:+ "" = s.
Proof. induction s; rewrite ?append_cons; [done | congruence]. Qed.

Lemma append_assoc s t u : (s +:+ t) +:+ u = s +:+ t +:+ u.
Proof. induction s; rewrite ?append_cons, ?append_nil_l; congruence. Qed.

Lemma length_append s t :
  String.length (s +:+ t) = String.length s + String.length t.
Proof. induction s; rewrite ?append_cons; simpl; [done | congruence]. Qed.

Lemma drop_append p s : Str.drop (String.length p) (p +:+ s) = s.
Proof. induction p; rewrite ?append_cons; simpl; [by destruct s | done]. Qed.

Lemma drop_take n s :
  n <= String.length s ->
  exists p, s = p +:+ Str.drop n s /\ String.length p = n.
Proof.
  revert s; induction n as [|n IH]; intros s Hn.
  - exists "". by destruct s.
  - destruct s as [|c s]; simpl in *; [lia|].
    destruct (IH s) as (p & Hp & Hlen); [lia|].
    exists (String c p); rewrite append_cons; simpl. split; congruence.
Qed.

(** [endsWith] holds exactly of the strings that are some stem followed
    by the suffix. *)
Lemma endsWith_true s suffix :
  Str.endsWith s suffix = true <-> exists stem, s = stem +:+ suffix.
Proof.
  unfold Str.endsWith. split.
  - case_decide as Hle; [|done]. intros Heq%bool_decide_eq_true.
    destruct (drop_take (String.length s - String.length suffix) s)
      as (p & Hp & _); [lia|].
    exists p. congruence.
  - intros [stem ->]. rewrite length_append.
    rewrite decide_True by lia.
    replace (String.length stem + String.length suffix - String.length suffix)
      with (String.length stem) by lia.
    rewrite drop_append. by apply bool_decide_eq_true.
Qed.

Lemma includes_append_l s u t : Str.includes s t -> Str.includes (u +:+ s) t.
Proof.
  intros (pre & post & ->). exists (u +:+ pre), post.
  by rewrite append_assoc.
Qed.

Lemma includes_append_r s u t : Str.includes s t -> Str.includes (s +:+ u) t.
Proof.
  intros (pre & post & ->). exists pre, (post +:+ u).
  by rewrite !append_assoc.
Qed.
End strings.

(** ** Paths and directories *)

Section segments.
Implicit Types (s w : string) (segs stack : list string) (sep : ascii).

Lemma split_sep sep s : Str.split sep (String sep s) = "" :: Str.split sep s.
Proof. simpl. by rewrite decide_True. Qed.

Lemma split_not_nil sep s : Str.split sep s <> [].
Proof.
  destruct s as [|c s]; simpl; [done|].
  case_decide; [done|]. by destruct (Str.split sep s).
Qed.

(** The segments that [split] yields hold no separator. *)
Lemma split_plain sep s w : w ∈ Str.split sep s -> Str.split sep w = [w].
Proof.
  revert w. induction s as [|c s IH]; intros w; simpl.
  - by intros ->%list_elem_of_singleton.
  - case_decide as Hc.
    + intros [-> | Hin]%elem_of_cons; [done | by apply IH].
    + destruct (Str.split sep s) as [|w0 ws] eqn:Hs.
      * by destruct (split_not_nil sep s).
      * intros [-> | Hin]%elem_of_cons.
        -- simpl. rewrite decide_False by done.
           rewrite (IH w0) by (by left). done.
        -- apply IH. by right.
Qed.

Lemma split_plain_inv sep c w :
  Str.split sep (String c w) = [String c w] -> c <> sep /\ Str.split sep w = [w].
Proof.
  simpl. case_decide as Hc; [done|].
  destruct (Str.split sep w) as [|w0 ws] eqn:Hw.
  - by destruct (split_not_nil sep w).
  - intros [= -> ->]. done.
Qed.

Lemma split_app_plain sep w s :
  Str.split sep w = [w] ->
  Str.split sep (w +:+ String sep s) = w :: Str.split sep s.
Proof.
  induction w as [|c w IH].
  - intros _. rewrite append_nil_l. apply split_sep.
  - intros [Hc Hw]%split_plain_inv. rewrite append_cons. simpl.
    rewrite decide_False by done. by rewrite (IH Hw).
Qed.

Lemma split_join sep segs :
  Forall (fun w => Str.split sep w = [w]) segs -> segs <> [] ->
  Str.split sep (Str.join (String sep "") segs) = segs.
Proof.
  unfold Str.join. induction 1 as [|w segs Hw Hsegs IH]; [done|]. intros _.
  destruct segs as [|w' segs]; [done|].
  change (String.concat (String sep "") (w :: w' :: segs))
    with (w +:+ String sep "" +:+ String.concat (String sep "") (w' :: segs)).
  rewrite append_cons, append_nil_l, (split_app_plain _ _ _ Hw).
  by rewrite IH.
Qed.

Lemma walk_kept stack segs :
  Forall kept segs -> Path.walk stack segs = rev segs ++ stack.
Proof.
  intros Hsegs. revert stack.
  induction Hsegs as [|seg segs [Hdot Hup] _ IH]; intros stack; [done|].
  simpl. rewrite !decide_False by done.
  by rewrite IH, <- app_assoc.
Qed.

Lemma walk_segments stack segs :
  Forall kept stack ->
  Forall (fun w => Str.split "/" w = [w]) stack ->
  Forall (fun w => Str.split "/" w = [w]) segs ->
  Forall kept (Path.walk stack segs) /\
  Forall (fun w => Str.split "/" w = [w]) (Path.walk stack segs).
Proof.
  intros Hkept Hplain Hsegs. revert stack Hkept Hplain.
  induction Hsegs as [|seg segs Hseg _ IH]; intros stack Hkept Hplain; [done|].
  simpl. case_decide as Hdot; [by apply IH|].
  case_decide as Hup.
  - apply IH; destruct stack; try done; by eapply Forall_cons_1.
  - apply IH; by constructor.
Qed.

(** [resolve] yields a path whose segments are those it was made of. *)
Lemma resolve_segments p :
  Path.walk [] (Str.split "/" (Path.resolve p)) = Path.walk [] (Str.split "/" p).
Proof.
  unfold Path.resolve, Path.normalize.
  destruct (walk_segments [] (Str.split "/" p)) as [Hkept Hplain]; [done..| |].
  { apply Forall_forall. intros w Hin. by apply (split_plain "/" p). }
  set (st := Path.walk [] (Str.split "/" p)) in *.
  change ("/" +:+ Str.join "/" (rev st)) with (String "/" (Str.join "/" (rev st))).
  rewrite split_sep. simpl.
  destruct st as [|seg st]; [done|].
  rewrite split_join.
  - rewrite walk_kept by (by apply Forall_rev).
    by rewrite rev_involutive, app_nil_r.
  - by apply Forall_rev.
  - simpl. by destruct (rev st).
Qed.
End segments.

Lemma has_dir_dist fs : has_dir fs ["dist"].
Proof. right. by left. Qed.

Lemma has_dir_prefix fs dir dir' :
  dir' `prefix_of` dir -> has_dir fs dir -> has_dir fs dir'.
Proof.
  intros Hpre [-> | [-> | (key & Hkey & Hdir)]].
  - left. by apply prefix_nil_inv.
  - destruct Hpre as [rest Hrest].
    destruct dir' as [|seg dir']; [by left|].
    right; left. injection Hrest as <- Hrest.
    by destruct dir'.
  - right; right. exists key. split; [done|]. by etrans.
Qed.

Lemma has_dir_insert fs key n dir :
  has_dir (<[key := n]> fs) dir <->
  has_dir fs dir \/ dir `prefix_of` Path.directory key.
Proof.
  split.
  - intros [-> | [-> | (key' & Hkey & Hdir)]].
    + left. by left.
    + left. right. by left.
    + destruct (decide (key' = key)) as [-> | Hne]; [by right|].
      left. right; right. exists key'. by rewrite lookup_insert_ne in Hkey.
  - intros [[-> | [-> | (key' & Hkey & Hdir)]] | Hdir].
    + by left.
    + right. by left.
    + right; right. exists key'. split; [|done].
      rewrite lookup_insert. case_decide; [by eexists | done].
    + right; right. exists key. split; [|done].
      rewrite lookup_insert_eq. by eexists.
Qed.

(** A file created in a directory that is there leaves the directories as
    they were. *)
Lemma has_dir_write fs key n dir :
  has_dir fs (Path.directory key) ->
  has_dir (<[key := n]> fs) dir <-> has_dir fs dir.
Proof.
  intros Hthere. rewrite has_dir_insert. split; [|by left].
  intros [Hdir | Hpre]; [done|]. by apply (has_dir_prefix _ _ _ Hpre).
Qed.

Lemma removelast_prefix {A} (l : list A) : removelast l `prefix_of` l.
Proof.
  destruct l as [|x l] using rev_ind; [done|].
  rewrite removelast_last. by exists [x].
Qed.

(** The directory a path lies in is one of those that opening it goes
    through, or lies above one of them. *)
Lemma crossed_directory fs stack segs :
  has_dir fs (rev stack) ->
  Forall (has_dir fs) (Path.crossed stack segs) ->
  has_dir fs (removelast (rev (Path.walk stack segs))).
Proof.
  revert stack. induction segs as [|seg rest IH]; intros stack Hstack Hall.
  - simpl. by apply (has_dir_prefix _ _ _ (removelast_prefix _)).
  - simpl in *. case_decide as Hdot; [by apply IH|].
    case_decide as Hup.
    + apply IH; [|done]. apply (has_dir_prefix _ (rev stack)); [|done].
      destruct stack as [|top stack]; [done|]. simpl. by exists [top].
    + destruct rest as [|next rest].
      * simpl. by rewrite removelast_last.
      * apply Forall_cons in Hall as [Hseg Hall]. by apply IH.
Qed.

Lemma reachable_directory fs p :
  reachable fs p -> has_dir fs (Path.directory (Path.resolve p)).
Proof.
  intros Hall. unfold Path.directory. rewrite resolve_segments.
  apply crossed_directory; [by left | done].
Qed.

Lemma reachable_write fs key n p :
  has_dir fs (Path.directory key) ->
  reachable (<[key := n]> fs) p <-> reachable fs p.
Proof.
  intros Hthere. unfold reachable. apply Forall_proper; [|done].
  intros dir. by apply has_dir_write.
Qed.

Lemma fs_writeFile_lands p text fs :
  reachable fs p ->
  fs_writeFile p text fs
  = Run (Ok tt) (<[Path.resolve p := File (Raw text)]> fs) [(p, text)].
Proof. intros Hdir. unfold fs_writeFile. by rewrite decide_True. Qed.

Lemma fs_writeFile_fails p text fs :
  ~ reachable fs p -> fs_writeFile p text fs = Run (Throw IOError) fs [].
Proof. intros Hdir. unfold fs_writeFile. by rewrite decide_False. Qed.

(** ** Running computations *)

Lemma after_nil {A} (r : run A) : M.after [] r = r.
Proof. by destruct r. Qed.

Lemma after_after {A} (l1 l2 : list (string * string)) (r : run A) :
  M.after l1 (M.after l2 r) = M.after (l1 ++ l2) r.
Proof. unfold M.after; simpl. by rewrite app_assoc. Qed.

Lemma bind_ok {A B} (m : M A) (k : A -> M B) fs a fs' log :
  m fs = Run (Ok a) fs' log -> M.bind m k fs = M.after log (k a fs').
Proof. unfold M.bind. by intros ->. Qed.

Lemma bind_throw {A B} (m : M A) (k : A -> M B) fs e fs' log :
  m fs = Run (Throw e) fs' log -> M.bind m k fs = Run (Throw e) fs' log.
Proof. unfold M.bind. by intros ->. Qed.

Lemma bind_ret {A B} (a : A) (k : A -> M B) fs : M.bind (M.ret a) k fs = k a fs.
Proof. unfold M.bind, M.ret, M.after; simpl. by destruct (k a fs). Qed.

Lemma bind_lift_ok {A B} (a : A) (k : A -> M B) fs :
  M.bind (M.lift (Ok a)) k fs = k a fs.
Proof. apply (bind_ret a k fs). Qed.

Lemma bind_lift_throw {A B} e (k : A -> M B) fs :
  M.bind (M.lift (Throw e)) k fs = Run (Throw e) fs [].
Proof. done. Qed.

Lemma bind_console {B} message (k : unit -> M B) fs :
  M.bind (console_log message) k fs = k tt fs.
Proof. apply (bind_ret tt k fs). Qed.

Lemma bind_mkdir {B} p (k : unit -> M B) fs :
  M.bind (fs_mkdir p) k fs = k tt fs.
Proof. apply (bind_ret tt k fs). Qed.

Lemma try_catch_ok {A} (body : M A) handler fs a fs' log :
  body fs = Run (Ok a) fs' log -> M.try_catch body handler fs = Run (Ok a) fs' log.
Proof. unfold M.try_catch. by intros ->. Qed.

Lemma try_catch_throw {A} (body : M A) handler fs e fs' log :
  body fs = Run (Throw e) fs' log ->
  M.try_catch body handler fs = M.after log (handler e fs').
Proof. unfold M.try_catch. by intros ->. Qed.

Lemma concat_string prefix s : Js.concat prefix (JStr s) = Ok (prefix +:+ s).
Proof. reflexivity. Qed.

(** Push a computation through the monad operations it is made of. *)
Ltac step :=
  rewrite ?concat_string, ?bind_ret, ?bind_lift_ok, ?bind_lift_throw,
    ?bind_console, ?bind_mkdir, ?after_nil.

(** ** [readJson] *)

Lemma readJson_run filePath fs :
  readJson filePath fs = Run (Ok (load fs filePath)) fs [].
Proof.
  unfold readJson, load, M.bind, M.try_catch, fs_readFile; simpl.
  by destruct (fs !! Path.resolve (Path.resolve filePath)) as [[|[v|text]]|].
Qed.

(** C7. [readJson] never raises an error to its caller, whatever the path
    and the file system: it returns, leaving the files as they were, [null]
    when reading the file fails, [null] when the text read is not JSON, and
    the parsed value otherwise. *)
Theorem readJson_never_throws (filePath : string) (fs : disk) :
  exists v : value,
    readJson filePath fs = Run (Ok v) fs [] /\
    match returned (fs_readFile (Path.resolve filePath) fs) with
    | Throw _ => v = JNull
    | Ok data =>
        match JSON_parse data with
        | Throw _ => v = JNull
        | Ok parsed => v = parsed
        end
    end.
Proof.
  exists (load fs filePath). split; [apply readJson_run|].
  unfold load, fs_readFile.
  by destruct (fs !! Path.resolve (Path.resolve filePath)) as [[|[v|text]]|].
Qed.

(** ** [parseIndexJson] *)

Lemma typeof_string v : bool_decide (Js.typeof v = "string") = is_string v.
Proof. by destruct v. Qed.

Lemma typeof_object v : bool_decide (Js.typeof v = "object") = is_object v.
Proof. by destruct v. Qed.

Lemma is_index_entry_true entry :
  is_index_entry entry = Ok true <-> well_formed_entry entry.
Proof.
  unfold is_index_entry. rewrite typeof_object. split.
  - destruct entry as [| | | | | |props]; try done.
    simpl. rewrite !typeof_string.
    destruct (props !! "file") as [[| | | |file| |]|] eqn:Hfile; try done.
    destruct (props !! "title") as [[| | | |title| |]|] eqn:Htitle; try done.
    simpl. intros [= Hends%endsWith_true].
    by exists props, file, title.
  - intros (props & file & title & -> & Hfile & Htitle & Hends).
    simpl. rewrite !typeof_string, Hfile, Htitle; simpl.
    by apply endsWith_true in Hends as ->.
Qed.

Lemma is_index_entry_total entry : exists b, is_index_entry entry = Ok b.
Proof.
  unfold is_index_entry. rewrite typeof_object.
  destruct entry as [| | | | | |props]; try (eexists; reflexivity).
  simpl. rewrite !typeof_string.
  destruct (props !! "file") as [[| | | |file| |]|];
    try (eexists; reflexivity).
  all: destruct (props !! "title") as [[| | | |title| |]|];
    eexists; reflexivity.
Qed.

Lemma is_index_entry_decide entry :
  is_index_entry entry = Ok (bool_decide (well_formed_entry entry)).
Proof.
  case_bool_decide as Hwf; [by apply is_index_entry_true|].
  destruct (is_index_entry_total entry) as [[] Hb]; [|done].
  by apply is_index_entry_true in Hb.
Qed.

Lemma filter_index_entries entries :
  R.filter is_index_entry entries = Ok (filter well_formed_entry entries).
Proof.
  induction entries as [|entry entries IH]; [done|].
  simpl. rewrite is_index_entry_decide, IH; simpl.
  rewrite filter_cons. by case_bool_decide; case_decide.
Qed.

Lemma parseIndexJson_no_array data fs :
  Js.isArray data = false -> parseIndexJson data fs = Run (Ok None) fs [].
Proof. by destruct data. Qed.

Lemma parseIndexJson_array entries fs :
  parseIndexJson (JArr entries) fs
  = Run (Ok (Some (filter well_formed_entry entries))) fs [].
Proof. unfold parseIndexJson. rewrite filter_index_entries. by step. Qed.

(** C4. [parseIndexJson] returns [null] when its input is not an array;
    given an array, it returns exactly the entries that are objects with a
    string [file] ending in [.json] and a string [title], in the order of the
    input.  It touches no file either way. *)
Theorem parseIndexJson_filters (data : value) (fs : disk) :
  (Js.isArray data = false -> parseIndexJson data fs = Run (Ok None) fs []) /\
  (forall entries, data = JArr entries ->
     parseIndexJson data fs
     = Run (Ok (Some (filter well_formed_entry entries))) fs []).
Proof.
  split.
  - apply parseIndexJson_no_array.
  - intros entries ->. apply parseIndexJson_array.
Qed.

(** ** [isValidJsonFile] *)

Lemma is_corrupt_run fileContent : is_corrupt fileContent = Ok (corrupt fileContent).
Proof.
  unfold is_corrupt. rewrite typeof_object.
  destruct fileContent as [| | | | | |props]; try done.
  simpl. by destruct (props !! "questions") as [questions|].
Qed.

Lemma isValidJsonFile_run file fs :
  isValidJsonFile (JStr file) fs = Run (Ok (valid_file fs file)) fs [].
Proof.
  unfold isValidJsonFile, valid_file, document. simpl.
  destruct (fs !! data_key file) as [n|] eqn:Hkey; unfold data_key in Hkey.
  - rewrite (try_catch_ok _ _ _ (negb (corrupt (load fs (DATA_PATH +:+ file)))) fs []).
    { rewrite bool_decide_eq_true_2 by eauto. done. }
    step. rewrite (bind_ok _ _ _ tt fs []); [|unfold fs_access; by rewrite Hkey].
    step. rewrite (bind_ok _ _ _ _ fs [] (readJson_run _ _)). step.
    rewrite is_corrupt_run. step.
    destruct (corrupt _); by step.
  - rewrite (try_catch_throw _ _ _ IOError fs []).
    { step. rewrite bool_decide_eq_false_2; [done|]. by intros [? ?]. }
    step. apply bind_throw. unfold fs_access. by rewrite Hkey.
Qed.

(** ** The page renderer *)

Lemma generate_entry_run entry file fs :
  Js.get entry "file" = Ok (JStr file) ->
  generate_entry entry fs = emit file (render (document fs file)) fs.
Proof.
  intros Hfile. unfold generate_entry, render, document.
  rewrite Hfile; simpl. step.
  rewrite (bind_ok _ _ _ _ fs [] (readJson_run _ _)). step.
  destruct (is_invalid_structure _) as [[]|e]; simpl; step; try done.
  destruct (Js.get _ "title") as [title|e]; simpl; step; try done.
  destruct (Js.get _ "questions") as [questions|e]; simpl; step; try done.
  destruct (negb (Js.truthy title) || negb (Js.isArray questions)); step;
    try done.
  destruct (array_filter has_answers questions) as [validQuestions|e];
    simpl; step; try done.
  destruct (R.map card validQuestions) as [cards|e]; simpl; step; try done.
  destruct (page title _) as [html|e]; simpl; step; [|done].
  exact (bind_lift_ok _ (fun name => fs_writeFile ("dist/" +:+ name) html) fs).
Qed.

Lemma generateAllHtml_cons entry file rest fs :
  Js.get entry "file" = Ok (JStr file) ->
  generateAllHtml (entry :: rest) fs
  = M.after (written (process file fs))
      (generateAllHtml rest (files (process file fs))).
Proof.
  intros Hfile. simpl. unfold process.
  rewrite Hfile; simpl.
  destruct (render (document fs file)) as [[html|]|e] eqn:Hrender.
  - case_decide as Hdir.
    + erewrite bind_ok; [done|]. apply try_catch_ok.
      rewrite (generate_entry_run _ file), Hrender by done.
      by apply fs_writeFile_lands.
    + erewrite bind_ok; [done|]. erewrite try_catch_throw.
      2:{ rewrite (generate_entry_run _ file), Hrender by done.
          by apply fs_writeFile_fails. }
      by step.
  - erewrite bind_ok; [done|]. apply try_catch_ok.
    by rewrite (generate_entry_run _ file), Hrender.
  - erewrite bind_ok; [done|]. erewrite try_catch_throw.
    2:{ by rewrite (generate_entry_run _ file), Hrender. }
    by step.
Qed.

(** ** Maps and filters that may throw *)

Section throwing.
Context {A B : Type}.
Implicit Types (f : A -> result B) (p : A -> result bool) (l : list A).

Lemma map_ok f l :
  Forall (fun x => exists y, f x = Ok y) l ->
  exists ys, R.map f l = Ok ys /\ Forall2 (fun x y => f x = Ok y) l ys.
Proof.
  induction 1 as [|x l [y Hy] _ (ys & Hys & Hall)]; simpl.
  - by exists [].
  - exists (y :: ys). rewrite Hy, Hys; simpl. split; [done|].
    by constructor.
Qed.

Lemma map_throw f l x :
  x ∈ l -> (exists e, f x = Throw e) -> exists e, R.map f l = Throw e.
Proof.
  intros Hin He. induction Hin as [x l|x x' l _ IH]; simpl.
  - destruct He as [e ->]. by exists e.
  - destruct (IH He) as [e' ->].
    destruct (f x') as [y|e'']; simpl; by eexists.
Qed.

Lemma filter_ok p l (P : A -> Prop) `{!forall x, Decision (P x)} :
  Forall (fun x => p x = Ok (bool_decide (P x))) l ->
  R.filter p l = Ok (filter P l).
Proof.
  induction 1 as [|x l Hx _ IH]; [done|].
  simpl. rewrite Hx, IH; simpl. rewrite filter_cons.
  by case_bool_decide; case_decide.
Qed.

Lemma filter_keeps p l ys x :
  R.filter p l = Ok ys -> x ∈ l -> p x = Ok true -> x ∈ ys.
Proof.
  intros Hf Hin Hx. revert ys Hf.
  induction Hin as [x l|x x' l _ IH]; simpl; intros ys.
  - rewrite Hx; simpl. destruct (R.filter p l); simpl; [|done].
    intros [= <-]. by left.
  - destruct (p x') as [b|]; simpl; [|done].
    destruct (R.filter p l) as [zs|]; simpl; [|done].
    intros [= <-]. specialize (IH Hx zs eq_refl).
    destruct b; [by right | done].
Qed.


Lemma map_inv f l ys x :
  R.map f l = Ok ys -> x ∈ l -> exists y, f x = Ok y.
Proof.
  intros Hm Hin. revert ys Hm.
  induction Hin as [x l|x x' l _ IH]; simpl; intros ys.
  - destruct (f x) as [y|]; [by eexists | done].
  - destruct (f x') as [y|]; simpl; [|done].
    destruct (R.map f l) as [zs|]; simpl; [|done].
    intros _. by apply (IH zs).
Qed.

Lemma filter_inv p l ys x :
  R.filter p l = Ok ys -> x ∈ l -> exists b, p x = Ok b.
Proof.
  intros Hf Hin. revert ys Hf.
  induction Hin as [x l|x x' l _ IH]; simpl; intros ys.
  - destruct (p x) as [b|]; [by eexists | done].
  - destruct (p x') as [b|]; simpl; [|done].
    destruct (R.filter p l) as [zs|]; simpl; [|done].
    intros _. by apply (IH zs).
Qed.
End throwing.

(** ** Rendering a document *)

Lemma has_answers_true q : has_answers q = Ok true <-> answers_array q.
Proof.
  unfold has_answers, answers_array.
  destruct (Js.get q "answers") as [answers|e]; simpl.
  - destruct answers; simpl; split; try done; try (by intros [? [=]]).
    by eexists.
  - split; [done | by intros [? ?]].
Qed.

Lemma has_answers_decide q :
  ~ nullish q -> has_answers q = Ok (bool_decide (answers_array q)).
Proof.
  intros Hq. case_bool_decide as Ha; [by apply has_answers_true|].
  rewrite <- has_answers_true in Ha. unfold has_answers in *.
  destruct q as [| | | | | |props];
    try (by destruct Hq; unfold nullish; auto); try done.
  simpl in *. by destruct (Js.isArray _).
Qed.

Lemma is_invalid_structure_object props :
  is_invalid_structure (JObj props)
  = Ok (negb (bool_decide (is_Some (props !! "title")))
        || negb (bool_decide (is_Some (props !! "questions")))).
Proof.
  unfold is_invalid_structure. rewrite typeof_object. simpl.
  by destruct (bool_decide (is_Some (props !! "title"))).
Qed.

Lemma render_not_object fileContent :
  (forall props, fileContent <> JObj props) -> render fileContent = Ok None.
Proof.
  intros Hno. unfold render, is_invalid_structure. rewrite typeof_object.
  destruct fileContent as [| |b|n|s|items|props]; try done; simpl.
  - by destruct b.
  - by case_match.
  - by case_match.
  - by destruct Hno with props.
Qed.

Lemma render_accepted props title questions :
  props !! "title" = Some title ->
  props !! "questions" = Some (JArr questions) ->
  Js.truthy title = true ->
  render (JObj props) = build title questions.
Proof.
  intros Ht Hq Htruthy. unfold render.
  rewrite is_invalid_structure_object, Ht, Hq; simpl.
  rewrite ?bool_decide_eq_true_2 by eauto. simpl.
  rewrite ?Ht, ?Hq; simpl. by rewrite Htruthy.
Qed.

Lemma render_skipped props questions :
  props !! "questions" = Some questions ->
  Js.isArray questions = false ->
  render (JObj props) = Ok None.
Proof.
  intros Hq Harray. unfold render.
  rewrite is_invalid_structure_object, Hq; simpl.
  destruct (props !! "title") as [title|] eqn:Ht.
  - rewrite ?bool_decide_eq_true_2 by eauto. simpl.
    rewrite ?Ht, ?Hq; simpl. by rewrite Harray, orb_true_r.
  - by rewrite bool_decide_eq_false_2 by (by intros [? ?]).
Qed.

Lemma document_stored fs file v :
  fs !! data_key file = Some (File (Json v)) -> document fs file = v.
Proof. unfold document, load, data_key. by intros ->. Qed.

(** C2. A quiz file whose document has a [questions] field that is present
    and not [null] but is not an array passes [isValidJsonFile], yet the
    renderer skips it: processing its entry ends normally, writes no file and
    leaves the file system as it was. *)
Theorem non_array_questions_valid_but_skipped
    (fs : disk) (entry : value) (file : string)
    (props : gmap string value) (questions : value) :
  Js.get entry "file" = Ok (JStr file) ->
  fs !! data_key file = Some (File (Json (JObj props))) ->
  props !! "questions" = Some questions ->
  questions <> JNull ->
  Js.isArray questions = false ->
  isValidJsonFile (JStr file) fs = Run (Ok true) fs [] /\
  generate_entry entry fs = Run (Ok tt) fs [] /\
  generateAllHtml [entry] fs = Run (Ok tt) fs [].
Proof.
  intros Hfile Hstored Hq Hnull Harray.
  pose proof (document_stored _ _ _ Hstored) as Hdoc.
  assert (render (document fs file) = Ok None) as Hrender
    by (rewrite Hdoc; by eapply render_skipped).
  split; [|split].
  - rewrite isValidJsonFile_run. unfold valid_file.
    rewrite Hdoc, bool_decide_eq_true_2 by eauto. simpl. rewrite Hq.
    by destruct questions.
  - by rewrite (generate_entry_run _ file), Hrender.
  - rewrite (generateAllHtml_cons _ file) by done.
    unfold process. by rewrite Hrender.
Qed.

(** ** Questions and their cards *)

Lemma is_nullish_false v : is_nullish v = false <-> ~ nullish v.
Proof.
  unfold nullish.
  destruct v; split; intros H; try done; try (by intros [|]);
    exfalso; apply H; auto.
Qed.

Lemma get_field v k : is_nullish v = false -> Js.get v k = Ok (field v k).
Proof. unfold field. by destruct v. Qed.

Lemma is_printable_true v : is_printable v = true -> exists s, Js.toString v = Ok s.
Proof. unfold is_printable. destruct (Js.toString v); [by eexists | done]. Qed.

Lemma answer_item_ok answer :
  answer_ok answer = true -> exists item, answer_item answer = Ok item.
Proof.
  unfold answer_ok. intros [Hn [text Ht]%is_printable_true]%andb_prop.
  apply negb_true_iff in Hn. unfold answer_item.
  rewrite !get_field by done. simpl. rewrite Ht. simpl. by eexists.
Qed.

Lemma answer_item_nullish answer :
  nullish answer -> answer_item answer = Throw TypeError.
Proof. by intros [-> | ->]. Qed.

Lemma card_ok q :
  question_ok q = true -> answers_array q -> exists c, card q = Ok c.
Proof.
  unfold question_ok. intros [Hn Hq]%andb_prop [items Hitems].
  apply negb_true_iff in Hn. rewrite get_field in Hitems by done.
  injection Hitems as Hitems. rewrite Hitems in Hq.
  apply andb_prop in Hq as [[heading Hh]%is_printable_true Hanswers].
  destruct (map_ok answer_item items) as (lis & Hlis & _).
  { apply Forall_forall. intros answer Hin. apply answer_item_ok.
    rewrite forallb_forall in Hanswers. by apply Hanswers, list_elem_of_In. }
  unfold card. rewrite !get_field by done. simpl. rewrite Hh, Hitems. simpl.
  rewrite Hlis. simpl. by eexists.
Qed.

Lemma card_null_answer q items answer :
  Js.get q "answers" = Ok (JArr items) -> answer ∈ items -> nullish answer ->
  exists e, card q = Throw e.
Proof.
  intros Hitems Hin Hnull. unfold card.
  destruct (Js.get q "question") as [question|e]; simpl; [|by eexists].
  destruct (Js.toString question) as [heading|e]; simpl; [|by eexists].
  rewrite Hitems; simpl.
  destruct (map_throw answer_item items answer Hin) as [e ->];
    [|by eexists].
  exists TypeError. by apply answer_item_nullish.
Qed.

Lemma build_ok title questions :
  is_printable title = true ->
  forallb question_ok questions = true ->
  exists cards html,
    Forall2 (fun q c => card q = Ok c) (filter answers_array questions) cards /\
    page title (Str.join Str.nl cards) = Ok html /\
    build title questions = Ok (Some html).
Proof.
  intros [text Ht]%is_printable_true Hqs.
  rewrite forallb_forall in Hqs.
  assert (R.filter has_answers questions = Ok (filter answers_array questions))
    as Hfilter.
  { apply filter_ok, Forall_forall. intros q Hin%list_elem_of_In.
    apply has_answers_decide, is_nullish_false.
    apply Hqs in Hin. unfold question_ok in Hin.
    apply andb_prop in Hin as [Hn _]. by apply negb_true_iff. }
  destruct (map_ok card (filter answers_array questions))
    as (cards & Hcards & Hall).
  { apply Forall_forall. intros q [Ha Hin]%list_elem_of_filter.
    apply card_ok; [|done]. by apply Hqs, list_elem_of_In. }
  exists cards. eexists. split; [done|].
  unfold build, page. rewrite Hfilter; simpl. rewrite Hcards; simpl.
  rewrite Ht; simpl. done.
Qed.

Lemma build_null_answer title questions q items answer :
  q ∈ questions -> Js.get q "answers" = Ok (JArr items) ->
  answer ∈ items -> nullish answer ->
  exists e, build title questions = Throw e.
Proof.
  intros Hq Hitems Hin Hnull. unfold build.
  destruct (R.filter has_answers questions) as [validQuestions|e] eqn:Hf;
    simpl; [|by eexists].
  assert (q ∈ validQuestions) as Hvalid.
  { eapply filter_keeps; [done..|]. apply has_answers_true. by eexists. }
  destruct (map_throw card validQuestions q Hvalid) as [e ->];
    [|by eexists].
  by eapply card_null_answer.
Qed.


Lemma answer_item_inv answer item :
  answer_item answer = Ok item -> answer_ok answer = true.
Proof.
  unfold answer_item, answer_ok, is_printable, field.
  destruct (Js.get answer "correct") as [correct|] eqn:Hc; [|done]. simpl.
  destruct (Js.get answer "answer") as [text|]; [|done]. simpl.
  destruct (Js.toString text); [|done]. intros _.
  by destruct answer.
Qed.

Lemma card_inv q c : card q = Ok c -> question_ok q = true.
Proof.
  unfold card, question_ok, is_printable, field.
  destruct (Js.get q "question") as [question|] eqn:Hq; [|done]. simpl.
  destruct (Js.toString question) as [heading|]; [|done]. simpl.
  destruct (Js.get q "answers") as [answers|]; [|done]. simpl.
  destruct answers as [| | | | |items|]; try done. simpl.
  destruct (R.map answer_item items) as [lis|] eqn:Hitems; [|done].
  intros _. apply andb_true_intro. split; [by destruct q|].
  apply forallb_forall. intros answer Hin%list_elem_of_In.
  destruct (map_inv _ _ _ _ Hitems Hin) as [item Hitem].
  by apply answer_item_inv in Hitem.
Qed.

Lemma has_answers_false q :
  has_answers q = Ok false -> question_ok q = true.
Proof.
  unfold has_answers, question_ok, field.
  destruct (Js.get q "answers") as [answers|] eqn:Ha; [|done]. simpl.
  intros [= Harray]. apply andb_true_intro. split; [by destruct q|].
  by destruct answers.
Qed.

(** A page is only built when no question raises an error and the title
    converts to a string. *)
Lemma build_inv title questions html :
  build title questions = Ok (Some html) ->
  is_printable title = true /\ forallb question_ok questions = true.
Proof.
  unfold build, page, is_printable.
  destruct (R.filter has_answers questions) as [validQuestions|] eqn:Hf;
    [|done]. simpl.
  destruct (R.map card validQuestions) as [cards|] eqn:Hm; [|done]. simpl.
  destruct (Js.toString title) as [text|]; [|done]. intros _.
  split; [done|]. apply forallb_forall. intros q Hin%list_elem_of_In.
  destruct (filter_inv _ _ _ _ Hf Hin) as [[] Hq].
  - pose proof (filter_keeps _ _ _ _ Hf Hin Hq) as Hvalid.
    destruct (map_inv _ _ _ _ Hm Hvalid) as [c Hc].
    by apply card_inv in Hc.
  - by apply has_answers_false.
Qed.

Lemma render_null_answer props questions q items answer :
  props !! "questions" = Some (JArr questions) ->
  q ∈ questions ->
  Js.get q "answers" = Ok (JArr items) ->
  answer ∈ items ->
  nullish answer ->
  render (JObj props) = Ok None \/ exists e, render (JObj props) = Throw e.
Proof.
  intros Hqs Hq Hitems Hin Hnull.
  destruct (props !! "title") as [title|] eqn:Ht.
  - destruct (Js.truthy title) eqn:Htruthy.
    + right. rewrite (render_accepted _ title questions) by done.
      by eapply build_null_answer.
    + left. unfold render. rewrite is_invalid_structure_object, Ht, Hqs. simpl.
      rewrite ?bool_decide_eq_true_2 by eauto. simpl.
      rewrite ?Ht, ?Hqs. simpl. by rewrite Htruthy.
  - left. unfold render. by rewrite is_invalid_structure_object, Ht.
Qed.

(** What the [try] block did, when it ended normally, stays, and the loop
    goes on from there. *)
Lemma generateAllHtml_next entry rest fs fs' log :
  generate_entry entry fs = Run (Ok tt) fs' log ->
  generateAllHtml (entry :: rest) fs = M.after log (generateAllHtml rest fs').
Proof.
  intros Hentry. simpl. erewrite bind_ok; [done|]. by apply try_catch_ok.
Qed.

(** C10, amended. When some element of a question's [answers] array is
    [null] or [undefined], no file is written for the document and the file
    system is left as it was; rendering fails inside the [try] block when the
    document is one the renderer accepts (with a title that is not truthy it
    is skipped instead); either way the loop goes on as if the entry were not
    in the list, and what the [try] block of the next entry writes is
    written. *)
Theorem null_answer_fails_whole_document
    (fs : disk) (entry : value) (file : string) :
  Js.get entry "file" = Ok (JStr file) ->
  has_null_answer fs file ->
  ((exists title questions, accepted fs entry file title questions) ->
   rendering_fails fs entry) /\
  written (generate_entry entry fs) = [] /\
  files (generate_entry entry fs) = fs /\
  (forall rest, generateAllHtml (entry :: rest) fs = generateAllHtml rest fs) /\
  (forall next rest fs' log,
     generate_entry next fs = Run (Ok tt) fs' log ->
     generateAllHtml (entry :: next :: rest) fs
     = M.after log (generateAllHtml rest fs')).
Proof.
  intros Hfile (props & questions & q & items & answer
                & Hstored & Hqs & Hq & Hitems & Hin & Hnull).
  pose proof (document_stored _ _ _ Hstored) as Hdoc.
  pose proof (render_null_answer _ _ _ _ _ Hqs Hq Hitems Hin Hnull) as Hrender.
  rewrite <- Hdoc in Hrender.
  assert (forall rest, generateAllHtml (entry :: rest) fs = generateAllHtml rest fs)
    as Hskip.
  { intros rest. rewrite (generateAllHtml_cons _ file) by done. unfold process.
    destruct Hrender as [-> | [e ->]]; simpl; by rewrite after_nil. }
  split; [|split; [|split; [|split]]].
  - intros (title & questions' & _ & props' & Hstored' & Ht & Htruthy & Hqs').
    rewrite Hstored in Hstored'. injection Hstored' as <-.
    rewrite Hqs in Hqs'. injection Hqs' as <-.
    destruct (build_null_answer title questions q items answer) as [e He];
      [done..|].
    exists e. rewrite (generate_entry_run _ file), Hdoc by done.
    by rewrite (render_accepted _ title questions), He.
  - rewrite (generate_entry_run _ file) by done.
    by destruct Hrender as [-> | [e ->]].
  - rewrite (generate_entry_run _ file) by done.
    by destruct Hrender as [-> | [e ->]].
  - exact Hskip.
  - intros next rest fs' log Hnext. rewrite Hskip.
    by apply generateAllHtml_next.
Qed.

(** ** Claim C5 as stated, and as the code has it *)


(** ** Paths of quiz files *)

Section paths.
Implicit Types (s t stem : string) (segs stack : list string).

Lemma split_suffix sep t stem :
  Str.split sep t = [t] ->
  exists segs last, Str.split sep (stem +:+ t) = segs ++ [last +:+ t].
Proof.
  intros Ht. induction stem as [|c stem (segs & last & IH)].
  - exists [], "". by rewrite append_nil_l.
  - rewrite append_cons. simpl. rewrite IH. case_decide.
    + by exists ("" :: segs), last.
    + destruct segs as [|w ws]; simpl.
      * by exists [], (String c last).
      * by exists (String c w :: ws), last.
Qed.

Lemma walk_app stack segs1 segs2 :
  Path.walk stack (segs1 ++ segs2) = Path.walk (Path.walk stack segs1) segs2.
Proof.
  revert stack. induction segs1 as [|seg segs1 IH]; intros stack; [done|].
  simpl. by repeat case_decide.
Qed.

Lemma join_snoc sep segs s : exists pre, Str.join sep (segs ++ [s]) = pre +:+ s.
Proof.
  induction segs as [|seg segs [pre IH]]; [by exists ""|].
  exists (seg +:+ sep +:+ pre). unfold Str.join in *.
  rewrite !append_assoc, <- IH. by destruct segs.
Qed.

(** Normalising keeps the extension of a path that ends in [.json]. *)
Lemma normalize_json stem :
  exists stem', Path.normalize (stem +:+ ".json") = stem' +:+ ".json".
Proof.
  destruct (split_suffix "/" ".json" stem) as (segs & last & Hsplit); [done|].
  unfold Path.normalize. rewrite Hsplit, walk_app. simpl.
  assert (5 <= String.length (last +:+ ".json")) as Hlen
    by (rewrite length_append; simpl; lia).
  rewrite decide_False
    by (intros [Heq | Heq]; rewrite Heq in Hlen; simpl in Hlen; lia).
  rewrite decide_False
    by (intros Heq; rewrite Heq in Hlen; simpl in Hlen; lia).
  simpl. destruct (join_snoc "/" (rev (Path.walk [] segs)) (last +:+ ".json"))
    as [pre ->].
  exists (pre +:+ last). by rewrite append_assoc.
Qed.

Lemma resolve_json stem :
  exists stem', Path.resolve (stem +:+ ".json") = stem' +:+ ".json".
Proof.
  destruct (normalize_json stem) as [stem' Hn].
  exists ("/" +:+ stem'). unfold Path.resolve. by rewrite Hn, append_assoc.
Qed.

Lemma data_key_json file :
  (exists stem, file = stem +:+ ".json") ->
  exists stem', data_key file = stem' +:+ ".json".
Proof.
  intros [stem ->]. unfold data_key. rewrite <- append_assoc.
  destruct (resolve_json (DATA_PATH +:+ stem)) as [stem1 ->].
  apply resolve_json.
Qed.

(** A path that does not end in [.json] is not the path of a quiz file. *)
Lemma data_key_apart file p :
  (exists stem, file = stem +:+ ".json") ->
  Str.endsWith p ".json" = false ->
  p <> data_key file.
Proof.
  intros Hjson Hp ->. apply data_key_json in Hjson.
  apply endsWith_true in Hjson. congruence.
Qed.
End paths.

(** ** The index page *)

Lemma well_formed_fields entry :
  well_formed_entry entry ->
  Js.get entry "file" = Ok (JStr (file_name entry)) /\
  Js.get entry "title" = Ok (JStr (title_text entry)) /\
  exists stem, file_name entry = stem +:+ ".json".
Proof.
  intros (props & file & title & -> & Hfile & Htitle & Hjson).
  unfold file_name, title_text, field. simpl. by rewrite Hfile, Htitle.
Qed.

Lemma index_item_link entry :
  well_formed_entry entry -> index_item entry = Ok (link entry).
Proof.
  intros (Hfile & Htitle & _)%well_formed_fields.
  unfold index_item. by rewrite Hfile, Htitle.
Qed.

Lemma index_items_links html data :
  Forall well_formed_entry data ->
  index_items html data = Ok (html +:+ links data).
Proof.
  intros Hall. revert html.
  induction Hall as [|entry data Hentry _ IH]; intros html; simpl.
  - by rewrite append_nil_r.
  - rewrite index_item_link by done. simpl. by rewrite IH, append_assoc.
Qed.

Lemma writeHtml_run data fs :
  Forall well_formed_entry data ->
  writeHtml data fs = fs_writeFile "dist/index.html" (index_page data) fs.
Proof.
  intros Hall. unfold writeHtml.
  rewrite index_items_links by done. by step.
Qed.

Lemma links_include data entry :
  entry ∈ data -> Str.includes (links data) (link entry).
Proof.
  induction 1 as [entry data|entry entry' data _ IH]; simpl.
  - exists "", (links data). by rewrite append_nil_l.
  - by apply includes_append_l.
Qed.

Lemma index_page_includes data entry :
  entry ∈ data -> Str.includes (index_page data) (link entry).
Proof.
  intros Hin. unfold index_page.
  by apply includes_append_l, includes_append_r, links_include.
Qed.

(** ** The assets and the run of [main] *)

Lemma generateCssFile_run fs :
  generateCssFile fs
  = Run (Ok tt) (<[Path.resolve css_path := File (Raw cssContent)]> fs)
      [(css_path, cssContent)].
Proof. reflexivity. Qed.

Lemma generateJsFile_run fs :
  generateJsFile fs
  = Run (Ok tt) (<[Path.resolve js_path := File (Raw jsContent)]> fs)
      [(js_path, jsContent)].
Proof. reflexivity. Qed.

Lemma collect_valid_run fs validFiles parsedJson :
  Forall well_formed_entry parsedJson ->
  collect_valid validFiles parsedJson fs
  = Run (Ok (validFiles
             ++ filter (fun entry => valid_file fs (file_name entry) = true)
                  parsedJson)) fs [].
Proof.
  intros Hall. revert validFiles.
  induction Hall as [|entry rest Hentry _ IH]; intros validFiles; simpl.
  - step. by rewrite app_nil_r.
  - apply well_formed_fields in Hentry as (Hfile & _ & _).
    rewrite Hfile. step.
    rewrite (bind_ok _ _ _ _ fs [] (isValidJsonFile_run _ _)). step.
    rewrite IH, filter_cons.
    destruct (valid_file fs (file_name entry)).
    + rewrite decide_True by done. by rewrite <- app_assoc.
    + by rewrite decide_False by done.
Qed.

Lemma chosen_well_formed fs entries : Forall well_formed_entry (chosen fs entries).
Proof.
  apply Forall_forall. intros entry Hin.
  by apply list_elem_of_filter in Hin as [_ [? _]%list_elem_of_filter].
Qed.

Lemma main_run_no_array fs :
  Js.isArray (load fs INDEX_PATH) = false ->
  main fs = Run (Ok tt) (assets fs) [(css_path, cssContent); (js_path, jsContent)].
Proof.
  intros Harray. unfold main.
  rewrite (bind_ok _ _ _ _ fs [] (readJson_run _ _)). step.
  rewrite (bind_ok _ _ _ None fs []);
    [|by apply parseIndexJson_no_array]. step.
  rewrite (bind_ok _ _ _ _ _ _ (generateCssFile_run _)).
  rewrite (bind_ok _ _ _ _ _ _ (generateJsFile_run _)).
  by step.
Qed.

Lemma main_run_array fs entries :
  load fs INDEX_PATH = JArr entries ->
  main fs
  = M.after [(css_path, cssContent); (js_path, jsContent);
             (index_path, index_page (chosen (assets fs) entries))]
      (generateAllHtml (chosen (assets fs) entries)
         (<[Path.resolve index_path :=
              File (Raw (index_page (chosen (assets fs) entries)))]>
            (assets fs))).
Proof.
  intros Hindex. unfold main.
  rewrite (bind_ok _ _ _ _ fs [] (readJson_run _ _)). step.
  rewrite Hindex.
  rewrite (bind_ok _ _ _ _ fs [] (parseIndexJson_array _ _)). step.
  rewrite (bind_ok _ _ _ _ _ _ (generateCssFile_run _)).
  rewrite (bind_ok _ _ _ _ _ _ (generateJsFile_run _)).
  assert (Forall well_formed_entry (filter well_formed_entry entries)) as Hwf.
  { apply Forall_forall. intros entry Hin.
    by apply list_elem_of_filter in Hin as [? _]. }
  rewrite (bind_ok _ _ _ _ _ _ (collect_valid_run _ [] _ Hwf)).
  step. simpl.
  pose proof (chosen_well_formed (assets fs) entries) as Hchosen.
  unfold chosen, assets in *.
  rewrite (bind_ok _ _ _ tt _ _ (writeHtml_run _ _ Hchosen)).
  by rewrite !after_after.
Qed.

(** ** What the assets and the index page leave untouched *)

Lemma valid_file_same fs1 fs2 file :
  fs1 !! data_key file = fs2 !! data_key file ->
  valid_file fs1 file = valid_file fs2 file.
Proof.
  intros Heq. unfold valid_file, document, load.
  fold (data_key file). by rewrite Heq.
Qed.

Lemma document_same fs1 fs2 file :
  fs1 !! data_key file = fs2 !! data_key file ->
  document fs1 file = document fs2 file.
Proof.
  intros Heq. unfold document, load. fold (data_key file). by rewrite Heq.
Qed.

Lemma assets_data fs file :
  (exists stem, file = stem +:+ ".json") ->
  assets fs !! data_key file = fs !! data_key file.
Proof.
  intros Hjson. unfold assets.
  rewrite !lookup_insert_ne; [done|by apply data_key_apart..].
Qed.

Lemma chosen_assets fs entries : chosen (assets fs) entries = chosen fs entries.
Proof.
  unfold chosen. rewrite !list_filter_filter. apply list_filter_iff.
  intros entry. split; intros [Hvalid Hwf]; (split; [|done]);
    destruct (well_formed_fields _ Hwf) as (_ & _ & Hjson);
    by rewrite (valid_file_same _ _ _ (assets_data fs _ Hjson)) in *.
Qed.

(** ** Entries that pass both validators *)

Lemma valid_entry_chosen fs entry :
  valid_entry fs entry <->
  valid_file fs (file_name entry) = true /\ well_formed_entry entry.
Proof.
  unfold valid_entry, passes_index, passes_file_check.
  rewrite is_index_entry_true. split.
  - intros [Hwf Hvalid]. split; [|done].
    destruct (well_formed_fields _ Hwf) as (Hname & _ & _).
    rewrite Hname, isValidJsonFile_run in Hvalid. by injection Hvalid.
  - intros [Hvalid Hwf]. split; [done|].
    destruct (well_formed_fields _ Hwf) as (Hname & _ & _).
    rewrite Hname, isValidJsonFile_run. simpl. by rewrite Hvalid.
Qed.

Lemma valid_entries_chosen fs entries : valid_entries fs entries = chosen fs entries.
Proof.
  unfold valid_entries, chosen. rewrite list_filter_filter.
  apply list_filter_iff. intros entry. apply valid_entry_chosen.
Qed.

(** ** The pages [generateAllHtml] writes *)

Lemma process_written file fs :
  process file fs = Run (Ok tt) fs [] \/
  exists html,
    reachable fs (output_path file) /\
    render (document fs file) = Ok (Some html) /\
    process file fs
    = Run (Ok tt)
        (<[Path.resolve (output_path file) := File (Raw html)]> fs)
        [(output_path file, html)].
Proof.
  unfold process. destruct (render _) as [[html|]|e]; eauto.
  case_decide; eauto.
Qed.

Lemma generate_entry_written entry file fs :
  Js.get entry "file" = Ok (JStr file) ->
  written (generate_entry entry fs) = written (process file fs).
Proof.
  intros Hfile.
  rewrite (generate_entry_run _ _ _ Hfile). unfold process, emit.
  destruct (render _) as [[html|]|e]; try done.
  unfold fs_writeFile. by case_decide.
Qed.

Lemma generateAllHtml_returns entries fs :
  Forall well_formed_entry entries ->
  returned (generateAllHtml entries fs) = Ok tt.
Proof.
  intros Hall. revert fs.
  induction Hall as [|entry rest Hentry _ IH]; intros fs; [done|].
  apply well_formed_fields in Hentry as (Hfile & _ & _).
  rewrite (generateAllHtml_cons _ _ _ _ Hfile). simpl. apply IH.
Qed.

(** Every page written belongs to one of the entries, and there are no
    more pages than entries. *)
Lemma pages_from_entries entries fs :
  Forall well_formed_entry entries ->
  length (written (generateAllHtml entries fs)) <= length entries /\
  forall p html, (p, html) ∈ written (generateAllHtml entries fs) ->
    exists entry, entry ∈ entries /\ p = output_path (file_name entry).
Proof.
  intros Hall. revert fs.
  induction Hall as [|entry rest Hentry _ IH]; intros fs.
  { split; [done|]. intros p html Hin. by apply elem_of_nil in Hin. }
  destruct (well_formed_fields _ Hentry) as (Hfile & _ & _).
  rewrite (generateAllHtml_cons _ _ _ _ Hfile). simpl.
  destruct (IH (files (process (file_name entry) fs))) as [Hlen Hpaths].
  destruct (process_written (file_name entry) fs) as [Hw | (html & _ & _ & Hw)];
    rewrite Hw in *; simpl in *.
  - split; [lia|]. intros p html Hin.
    destruct (Hpaths p html Hin) as (e & He & ->). exists e. split; [by right|done].
  - split; [lia|]. intros p html' [[= -> ->] | Hin]%elem_of_cons.
    + exists entry. split; [by left|done].
    + destruct (Hpaths p html' Hin) as (e & He & ->).
      exists e. split; [by right|done].
Qed.

(** The writes of the loop leave the directories as they were. *)
Lemma generateAllHtml_dirs entries fs dir :
  Forall well_formed_entry entries ->
  has_dir (files (generateAllHtml entries fs)) dir <-> has_dir fs dir.
Proof.
  intros Hall. revert fs.
  induction Hall as [|entry rest Hentry _ IH]; intros fs; [done|].
  destruct (well_formed_fields _ Hentry) as (Hfile & _ & _).
  rewrite (generateAllHtml_cons _ _ _ _ Hfile). simpl. rewrite IH.
  destruct (process_written (file_name entry) fs)
    as [Hw | (html & Hdir & _ & Hw)]; rewrite Hw; simpl; [done|].
  by apply has_dir_write, reachable_directory.
Qed.

(** ** Documents that render *)

Lemma render_untitled props :
  props !! "title" = None -> render (JObj props) = Ok None.
Proof. intros Ht. unfold render. by rewrite is_invalid_structure_object, Ht. Qed.

Lemma render_no_questions props :
  props !! "questions" = None -> render (JObj props) = Ok None.
Proof.
  intros Hq. unfold render. rewrite is_invalid_structure_object, Hq. simpl.
  by rewrite orb_true_r.
Qed.

Lemma render_falsy_title props title :
  props !! "title" = Some title -> Js.truthy title = false ->
  render (JObj props) = Ok None.
Proof.
  intros Ht Hfalsy. unfold render. rewrite is_invalid_structure_object, Ht.
  destruct (props !! "questions") as [questions|] eqn:Hq; simpl.
  - rewrite ?bool_decide_eq_true_2 by eauto. simpl.
    rewrite ?Ht, ?Hq. simpl. by rewrite Hfalsy.
  - done.
Qed.

(** [renders] says when the renderer builds a page. *)
Lemma renders_render fs entry :
  renders fs entry = true <->
  exists html, render (document fs (file_name entry)) = Ok (Some html).
Proof.
  unfold renders, document, load. fold (data_key (file_name entry)).
  destruct (fs !! data_key (file_name entry)) as [[|[v|text]]|];
    try (split; [done | by intros [? ?]]).
  destruct v as [| | | | | |props];
    try (split; [done | intros [html Hr]; by rewrite render_not_object in Hr]).
  destruct (props !! "title") as [title|] eqn:Ht;
    [|split; [done | intros [html Hr]; by rewrite render_untitled in Hr]].
  destruct (props !! "questions") as [questions|] eqn:Hq;
    [|split; [done | intros [html Hr]; by rewrite render_no_questions in Hr]].
  destruct (Js.isArray questions) eqn:Harray.
  2:{ split; [by destruct questions|].
      intros [html Hr]. by rewrite (render_skipped _ _ Hq Harray) in Hr. }
  destruct questions as [| | | | |questions|]; try done.
  destruct (Js.truthy title) eqn:Htruthy; simpl.
  2:{ split; [done|].
      intros [html Hr]. by rewrite (render_falsy_title _ _ Ht Htruthy) in Hr. }
  rewrite (render_accepted _ _ _ Ht Hq Htruthy). split.
  - intros [Hprint Hok]%andb_prop.
    destruct (build_ok _ _ Hprint Hok) as (cards & html & _ & _ & Hbuild).
    by exists html.
  - intros [html [Hprint Hok]%build_inv]. by rewrite Hprint, Hok.
Qed.

Lemma renders_same fs1 fs2 entry :
  fs1 !! data_key (file_name entry) = fs2 !! data_key (file_name entry) ->
  renders fs1 entry = renders fs2 entry.
Proof. unfold renders. by intros ->. Qed.

(** When no page is written over a quiz file still to be read, the pages
    written are those of the entries whose page is built and finds its
    directory, in order. *)
Lemma pages_exact entries fs fs0 :
  Forall well_formed_entry entries ->
  Forall (fun entry =>
    Forall (fun other =>
      Path.resolve (output_path (file_name entry)) <> data_key (file_name other))
      entries) entries ->
  Forall (fun entry =>
    fs !! data_key (file_name entry) = fs0 !! data_key (file_name entry)) entries ->
  (forall dir, has_dir fs dir <-> has_dir fs0 dir) ->
  map fst (written (generateAllHtml entries fs))
  = map (fun entry => output_path (file_name entry))
      (filter (page_expected fs0) entries).
Proof.
  intros Hall. revert fs.
  induction Hall as [|entry rest Hentry Hrest IH]; intros fs Hapart Hsame Hdirs;
    [done|].
  destruct (well_formed_fields _ Hentry) as (Hfile & _ & _).
  rewrite (generateAllHtml_cons _ _ _ _ Hfile). simpl.
  apply Forall_cons in Hapart as [Hhead Hapart].
  apply Forall_cons in Hhead as [_ Hhead].
  apply Forall_cons in Hsame as [Hsame_entry Hsame].
  rewrite map_app, filter_cons.
  assert (Forall (fun e => Forall (fun other =>
            Path.resolve (output_path (file_name e)) <> data_key (file_name other))
            rest) rest) as Hapart'.
  { eapply Forall_impl; [exact Hapart|]. simpl. intros e He.
    by apply Forall_cons in He as [_ ?]. }
  pose proof (renders_render fs0 entry) as Hrenders.
  rewrite <- (document_same _ _ _ Hsame_entry) in Hrenders.
  destruct (process_written (file_name entry) fs)
    as [Hw | (html & Hdir & Hrender & Hw)]; rewrite Hw; simpl.
  - rewrite decide_False; [by apply IH|].
    intros [[html Hrender]%Hrenders Hdir].
    unfold process in Hw. rewrite Hrender, decide_True in Hw.
    + discriminate Hw.
    + eapply Forall_impl; [exact Hdir|]. intros dir. apply Hdirs.
  - rewrite decide_True.
    2:{ split; [apply Hrenders; by exists html|].
        eapply Forall_impl; [exact Hdir|]. intros dir. apply Hdirs. }
    simpl. f_equal. apply IH; [done|..].
    + apply Forall_forall. intros other Hin.
      rewrite lookup_insert_ne.
      * by eapply (proj1 (Forall_forall _ _) Hsame).
      * by eapply (proj1 (Forall_forall _ _) Hhead).
    + intros dir. rewrite <- Hdirs. by apply has_dir_write, reachable_directory.
Qed.

(** ** Runs over the same inputs *)

Lemma chosen_agree_on fs1 fs2 entries :
  Forall (fun entry =>
    fs1 !! data_key (file_name entry) = fs2 !! data_key (file_name entry))
    (filter well_formed_entry entries) ->
  chosen fs1 entries = chosen fs2 entries.
Proof.
  intros Hagree. unfold chosen.
  induction (filter well_formed_entry entries) as [|entry rest IH]; [done|].
  apply Forall_cons in Hagree as [Hentry Hagree].
  rewrite !filter_cons, (valid_file_same _ _ _ Hentry), (IH Hagree).
  done.
Qed.

(** Two runs of the loop read the same documents and find the same
    directories for their pages: they make the same writes. *)
Lemma generateAllHtml_agree_on entries fs1 fs2 :
  Forall well_formed_entry entries ->
  Forall (fun entry =>
    fs1 !! data_key (file_name entry) = fs2 !! data_key (file_name entry))
    entries ->
  Forall (fun entry =>
    reachable fs1 (output_path (file_name entry)) <->
    reachable fs2 (output_path (file_name entry))) entries ->
  written (generateAllHtml entries fs1) = written (generateAllHtml entries fs2).
Proof.
  intros Hall. revert fs1 fs2.
  induction Hall as [|entry rest Hentry _ IH]; intros fs1 fs2 Hagree Hdirs;
    [done|].
  destruct (well_formed_fields _ Hentry) as (Hfile & _ & _).
  apply Forall_cons in Hagree as [Hentry_agree Hagree].
  apply Forall_cons in Hdirs as [Hentry_dir Hdirs].
  rewrite !(generateAllHtml_cons _ _ _ _ Hfile). simpl.
  unfold process. rewrite (document_same _ _ _ Hentry_agree).
  destruct (render (document fs2 (file_name entry))) as [[html|]|e]; simpl;
    [|by apply IH..].
  destruct (decide (reachable fs1 _)) as [Hdir | Hdir];
    [rewrite decide_True by (by apply Hentry_dir)
    |rewrite decide_False by (by rewrite <- Hentry_dir)]; simpl;
    [|by apply IH].
  f_equal. apply IH.
  - eapply Forall_impl; [exact Hagree|]. simpl.
    intros other Hother. rewrite !lookup_insert. by case_decide.
  - eapply Forall_impl; [exact Hdirs|]. simpl.
    intros other Hother.
    rewrite !reachable_write; [done|apply reachable_directory..]; [|done].
    by apply Hentry_dir.
Qed.

Lemma index_json_loaded fs indexJson :
  readJson INDEX_PATH fs = Run (Ok indexJson) fs [] ->
  load fs INDEX_PATH = indexJson.
Proof. rewrite readJson_run. by intros [= ->]. Qed.

Lemma written_after {A} log (r : run A) : written (M.after log r) = log ++ written r.
Proof. done. Qed.

(** The assets and the index page go to [dist/]: writing them leaves the
    directories as they were. *)
Lemma staged_dirs fs index dir :
  has_dir (<[Path.resolve index_path := File (Raw index)]> (assets fs)) dir
  <-> has_dir fs dir.
Proof.
  unfold assets.
  rewrite !has_dir_write; [done|apply has_dir_dist..].
Qed.


Lemma staged_reachable fs index p :
  reachable (<[Path.resolve index_path := File (Raw index)]> (assets fs)) p
  <-> reachable fs p.
Proof.
  unfold reachable. apply Forall_proper; [|done].
  intros dir. apply staged_dirs.
Qed.

(** The run of [main] over an array manifest, in terms of the entries that
    pass both validators on the file system it starts from. *)
Lemma main_run_valid fs entries :
  load fs INDEX_PATH = JArr entries ->
  exists fs',
    main fs
    = M.after [(css_path, cssContent); (js_path, jsContent);
               (index_path, index_page (valid_entries fs entries))]
        (generateAllHtml (valid_entries fs entries) fs') /\
    Forall (fun entry =>
      fs' !! data_key (file_name entry) = fs !! data_key (file_name entry))
      (valid_entries fs entries) /\
    forall dir, has_dir fs' dir <-> has_dir fs dir.
Proof.
  intros Hindex. eexists. split; [|split].
  - rewrite (main_run_array _ _ Hindex), chosen_assets.
    by rewrite <- valid_entries_chosen.
  - rewrite valid_entries_chosen. apply Forall_forall. intros entry Hin.
    pose proof (proj1 (Forall_forall _ _) (chosen_well_formed fs entries) _ Hin)
      as Hwf.
    destruct (well_formed_fields _ Hwf) as (_ & _ & Hjson).
    rewrite lookup_insert_ne by (by apply data_key_apart).
    by apply assets_data.
  - intros dir. apply staged_dirs.
Qed.


Lemma load_index fs :
  load fs INDEX_PATH
  = match fs !! Path.resolve INDEX_PATH with
    | Some (File (Json v)) => v
    | _ => JNull
    end.
Proof. reflexivity. Qed.

(** Two runs on the same manifest and quiz files, with the same directories
    for the pages, make the same writes. *)
Lemma main_agree fs1 fs2 :
  same_inputs fs1 fs2 -> same_page_dirs fs1 fs2 ->
  written (main fs1) = written (main fs2).
Proof.
  unfold same_inputs, same_page_dirs, manifest_entries.
  intros [Hmanifest Hdata] Hdirs.
  assert (load fs1 INDEX_PATH = load fs2 INDEX_PATH) as Hindex
    by (by rewrite !load_index, Hmanifest).
  destruct (Js.isArray (load fs1 INDEX_PATH)) eqn:Harray.
  - destruct (load fs1 INDEX_PATH) as [| | | | |entries|] eqn:Hindex1; try done.
    symmetry in Hindex.
    rewrite (main_run_array _ _ Hindex1), (main_run_array _ _ Hindex).
    rewrite !chosen_assets, (chosen_agree_on _ _ _ Hdata). simpl.
    do 3 f_equal.
    assert (forall entry, entry ∈ chosen fs2 entries ->
              entry ∈ filter well_formed_entry entries) as Hsub.
    { intros entry Hin. unfold chosen in Hin.
      by apply list_elem_of_filter in Hin as [_ ?]. }
    apply generateAllHtml_agree_on; [apply chosen_well_formed|..].
    + apply Forall_forall. intros entry Hin%Hsub.
      unfold assets. rewrite !lookup_insert. repeat case_decide; try done.
      by eapply (proj1 (Forall_forall _ _) Hdata).
    + apply Forall_forall. intros entry Hin%Hsub.
      rewrite !staged_reachable.
      by eapply (proj1 (Forall_forall _ _) Hdirs).
  - rewrite (main_run_no_array _ Harray).
    rewrite Hindex in Harray. by rewrite (main_run_no_array _ Harray).
Qed.

(** C6. Whatever the file system holds, [main] first writes the style
    sheet and the script; when what [readJson] returns for the manifest is not
    an array (the file is missing, unreadable, not JSON, or holds another
    value), these are the only two writes: no index page and no quiz page. *)
Theorem assets_always_written (fs : disk) :
  exists indexJson rest,
    readJson INDEX_PATH fs = Run (Ok indexJson) fs [] /\
    written (main fs) = [(css_path, cssContent); (js_path, jsContent)] ++ rest /\
    (Js.isArray indexJson = false ->
       rest = [] /\ returned (main fs) = Ok tt /\ files (main fs) = assets fs).
Proof.
  exists (load fs INDEX_PATH).
  destruct (Js.isArray (load fs INDEX_PATH)) eqn:Harray.
  - destruct (load fs INDEX_PATH) as [| | | | |entries|] eqn:Hindex; try done.
    eexists. split; [by rewrite readJson_run, Hindex|]. split; [|done].
    by rewrite (main_run_array _ _ Hindex), written_after.
  - exists []. split; [apply readJson_run|].
    by rewrite (main_run_no_array _ Harray).
Qed.


Lemma size_page_files pages : size (page_files pages) <= length pages.
Proof.
  unfold page_files. induction pages as [|w pages IH]; [done|].
  simpl. set (rest := list_to_set _) in *.
  rewrite size_union_alt, size_singleton.
  assert (size (rest ∖ {[Path.resolve w.1]}) <= size rest) as Hle
    by (by apply subseteq_size, subseteq_difference_l).
  lia.
Qed.

(** C1, amended. For every manifest that is an array, the quiz pages
    written are at most as many as the entries that pass both validators; when
    no page is written over a quiz file that one of these entries names, the
    pages written are those of the entries that pass both validators, whose
    document is an object with a truthy title and an array of questions that
    raises no error when the page is built, and whose page finds the
    directories on its way; and when these pages are distinct files, they are
    as many as those entries. *)
Theorem pages_count_rendered_valid_entries (fs : disk) (entries : list value) :
  readJson INDEX_PATH fs = Run (Ok (JArr entries)) fs [] ->
  exists index pages,
    wrote fs index pages /\
    size (page_files pages) <= length (valid_entries fs entries) /\
    (outputs_apart (valid_entries fs entries) ->
     map fst pages
     = map (fun entry => output_path (file_name entry))
         (filter (page_expected fs) (valid_entries fs entries)) /\
     (NoDup (map (fun entry => Path.resolve (output_path (file_name entry)))
               (filter (page_expected fs) (valid_entries fs entries))) ->
      size (page_files pages)
      = length (filter (page_expected fs) (valid_entries fs entries)))).
Proof.
  intros Hindex%index_json_loaded.
  destruct (main_run_valid _ _ Hindex) as (fs' & Hmain & Hsame & Hdirs).
  assert (Forall well_formed_entry (valid_entries fs entries)) as Hwf
    by (rewrite valid_entries_chosen; apply chosen_well_formed).
  exists (index_page (valid_entries fs entries)),
    (written (generateAllHtml (valid_entries fs entries) fs')).
  split; [by unfold wrote; rewrite Hmain|]. split.
  - etrans; [apply size_page_files|]. by apply pages_from_entries.
  - intros Hapart.
    pose proof (pages_exact _ _ _ Hwf Hapart Hsame Hdirs) as Hpages.
    split; [done|]. intros Hdistinct. unfold page_files.
    replace (map (fun w => Path.resolve w.1)
               (written (generateAllHtml (valid_entries fs entries) fs')))
      with (map Path.resolve
              (map fst (written (generateAllHtml (valid_entries fs entries) fs'))))
      by (by rewrite map_map).
    rewrite Hpages, map_map, size_list_to_set by done.
    by rewrite length_map.
Qed.

(** C9. Every entry that passes both validators has its link in the index
    page, and every quiz page written belongs to such an entry; and there is a
    site whose index page links an entry for which no page is written. *)
Theorem index_links_outlive_pages :
  (forall (fs : disk) (entries : list value),
     readJson INDEX_PATH fs = Run (Ok (JArr entries)) fs [] ->
     exists index pages,
       wrote fs index pages /\
       (forall entry, entry ∈ valid_entries fs entries ->
          Str.includes index (link entry)) /\
       (forall p html, (p, html) ∈ pages ->
          exists entry,
            entry ∈ valid_entries fs entries /\
            p = output_path (file_name entry))) /\
  (exists (fs : disk) (entries : list value) (entry : value) (index : string),
     readJson INDEX_PATH fs = Run (Ok (JArr entries)) fs [] /\
     entry ∈ valid_entries fs entries /\
     (index_path, index) ∈ written (main fs) /\
     Str.includes index (link entry) /\
     forall p html, (p, html) ∈ written (main fs) ->
       p <> output_path (file_name entry)).
Proof.
  assert (forall (fs : disk) (entries : list value),
     readJson INDEX_PATH fs = Run (Ok (JArr entries)) fs [] ->
     exists index pages,
       wrote fs index pages /\
       (forall entry, entry ∈ valid_entries fs entries ->
          Str.includes index (link entry)) /\
       (forall p html, (p, html) ∈ pages ->
          exists entry,
            entry ∈ valid_entries fs entries /\
            p = output_path (file_name entry))) as Hlinks.
  { intros fs entries Hindex%index_json_loaded.
    destruct (main_run_valid _ _ Hindex) as (fs' & Hmain & _).
    assert (Forall well_formed_entry (valid_entries fs entries)) as Hwf
      by (rewrite valid_entries_chosen; apply chosen_well_formed).
    exists (index_page (valid_entries fs entries)),
      (written (generateAllHtml (valid_entries fs entries) fs')).
    split; [by unfold wrote; rewrite Hmain|]. split.
    - intros entry Hin. by apply index_page_includes.
    - by apply pages_from_entries. }
  split; [exact Hlinks|].
  exists Sample.oops_site, [Sample.entry "q.json" "Quiz"],
    (Sample.entry "q.json" "Quiz").
  destruct (Hlinks Sample.oops_site [Sample.entry "q.json" "Quiz"] eq_refl)
    as (index & pages & Hwrote & Hlink & _).
  assert (Sample.entry "q.json" "Quiz"
          ∈ valid_entries Sample.oops_site [Sample.entry "q.json" "Quiz"]) as Hin.
  { replace (valid_entries _ _) with [Sample.entry "q.json" "Quiz"]
      by (by vm_compute). by left. }
  exists index. split; [done|]. split; [done|].
  unfold wrote in Hwrote. split; [|split].
  - rewrite Hwrote. by do 2 right; left.
  - by apply Hlink.
  - intros p html Hp%(list_elem_of_fmap_2 fst). simpl in Hp.
    replace (fst <$> written (main Sample.oops_site))
      with [css_path; js_path; index_path] in Hp by (by vm_compute).
    intros ->. rewrite !elem_of_cons, elem_of_nil in Hp.
    destruct Hp as [Hp|[Hp|[Hp|[]]]]; by vm_compute in Hp.
Qed.

(** ** Replacing the extension *)

Lemma prefix_cons c c' pat s :
  String.prefix (String c pat) (String c' s)
  = if Ascii.ascii_dec c c' then String.prefix pat s else false.
Proof. reflexivity. Qed.

Lemma prefix_split pat s :
  String.prefix pat s = true -> exists post, s = pat +:+ post.
Proof.
  revert s. induction pat as [|c pat IH]; intros s.
  - intros _. by exists s.
  - destruct s as [|c' s]; [done|]. rewrite prefix_cons.
    destruct (Ascii.ascii_dec c c') as [<-|]; [|done].
    intros [post ->]%IH. by exists post.
Qed.

Lemma prefix_refl pat : String.prefix pat pat = true.
Proof.
  induction pat as [|c pat IH]; [done|]. rewrite prefix_cons.
  by destruct (Ascii.ascii_dec c c).
Qed.

Lemma replace_unfold pat rep s :
  Str.replace pat rep s
  = if String.prefix pat s then rep +:+ Str.drop (String.length pat) s
    else match s with
         | EmptyString => EmptyString
         | String c s' => String c (Str.replace pat rep s')
         end.
Proof. by destruct s. Qed.

(** When the pattern occurs in the name only as its suffix, [replace] swaps
    the suffix. *)
Lemma replace_only_suffix pat rep stem :
  (forall pre post, stem +:+ pat = pre +:+ pat +:+ post -> pre = stem) ->
  Str.replace pat rep (stem +:+ pat) = stem +:+ rep.
Proof.
  induction stem as [|c stem IH]; intros Honly.
  - rewrite !append_nil_l, replace_unfold, prefix_refl.
    replace (Str.drop (String.length pat) pat) with "";
      [by rewrite append_nil_r|].
    by rewrite <- (append_nil_r pat) at 2; rewrite drop_append.
  - rewrite replace_unfold.
    destruct (String.prefix pat (String c stem +:+ pat)) eqn:Hprefix.
    + apply prefix_split in Hprefix as [post Hpost].
      by specialize (Honly "" post Hpost).
    + rewrite !append_cons. f_equal. apply IH. intros pre post Heq.
      specialize (Honly (String c pre) post).
      rewrite !append_cons, Heq in Honly. by injection (Honly eq_refl).
Qed.

(** C3. A quiz file named [a.json.json] passes both validators, and the
    link in the index page and the path of the page written for it carry
    [a.html.json]: line 42 and line 176 replace the first [.json] of the
    name, not its suffix, so the name [a.json.html] that the claim asks for is
    not the one produced. *)
Theorem first_json_replaced_not_suffix :
  valid_entries Sample.double_site [Sample.entry "a.json.json" "Animals"]
  = [Sample.entry "a.json.json" "Animals"] /\
  index_item (Sample.entry "a.json.json" "Animals")
  = Ok ("<li><a href=" +:+ Str.dq +:+ "a.html.json" +:+ Str.dq
        +:+ ">Animals</a></li>" +:+ Str.nl) /\
  fst <$> written (main Sample.double_site)
  = ["dist/styles.css"; "dist/script.js"; "dist/index.html";
     "dist/a.html.json"].
Proof. split; [|split]; by vm_compute. Qed.

(** ** The claims at the sample sites *)

(** Counterexample to C1 as stated: it fails on a site whose one quiz has a string for its
    [questions]: the entry passes both validators and no quiz page is
    written. *)
Lemma skipped_quiz_leaves_fewer_pages :
  readJson INDEX_PATH Sample.oops_site
  = Run (Ok (JArr [Sample.entry "q.json" "Quiz"])) Sample.oops_site [] /\
  valid_entries Sample.oops_site [Sample.entry "q.json" "Quiz"]
  = [Sample.entry "q.json" "Quiz"] /\
  fst <$> written (main Sample.oops_site) = [css_path; js_path; index_path] /\
  ~ pages_match_valid_entries Sample.oops_site [Sample.entry "q.json" "Quiz"].
Proof.
  split; [by vm_compute|]. split; [by vm_compute|]. split; [by vm_compute|].
  intros (index & pages & Hwrote & Hsize). unfold wrote in Hwrote.
  apply (f_equal length) in Hwrote. rewrite length_app in Hwrote.
  replace (length (written (main Sample.oops_site))) with 3 in Hwrote
    by (by vm_compute).
  destruct pages as [|w pages]; [|simpl in Hwrote; lia].
  replace (length (valid_entries Sample.oops_site [Sample.entry "q.json" "Quiz"]))
    with 1 in Hsize by (by vm_compute).
  by vm_compute in Hsize.
Qed.

(** C1, amended, on a manifest of four elements: two entries pass both
    validators, the page of one of them is built, and that one quiz page is
    written. *)
Lemma mixed_site_pages :
  readJson INDEX_PATH Sample.mixed_site
  = Run (Ok (JArr Sample.mixed_manifest)) Sample.mixed_site [] /\
  outputs_apart (valid_entries Sample.mixed_site Sample.mixed_manifest) /\
  length (valid_entries Sample.mixed_site Sample.mixed_manifest) = 2 /\
  exists index pages,
    wrote Sample.mixed_site index pages /\
    map fst pages = ["dist/a.html"] /\
    size (page_files pages) = 1.
Proof.
  assert (outputs_apart (valid_entries Sample.mixed_site Sample.mixed_manifest))
    as Hapart.
  { unfold outputs_apart. apply (bool_decide_unpack _). vm_compute. exact I. }
  assert (NoDup (map (fun entry => Path.resolve (output_path (file_name entry)))
                   (filter (page_expected Sample.mixed_site)
                      (valid_entries Sample.mixed_site Sample.mixed_manifest))))
    as Hdistinct.
  { apply (bool_decide_unpack _). vm_compute. exact I. }
  split; [vm_compute; reflexivity|]. split; [exact Hapart|].
  split; [vm_compute; reflexivity|].
  destruct (pages_count_rendered_valid_entries
              Sample.mixed_site Sample.mixed_manifest)
    as (index & pages & Hwrote & _ & Hexact).
  - vm_compute. reflexivity.
  - destruct (Hexact Hapart) as [Hpaths Hsize].
    exists index, pages. split; [exact Hwrote|]. split.
    + rewrite Hpaths. vm_compute. reflexivity.
    + rewrite (Hsize Hdistinct). vm_compute. reflexivity.
Defined.

(** A quiz listed twice passes both validators twice and is written twice,
    to one file. *)
Lemma twice_listed_quiz_one_page :
  length (valid_entries Sample.twice_site
            [Sample.entry "a.json" "Animals"; Sample.entry "a.json" "Animals"]) = 2 /\
  exists index pages,
    wrote Sample.twice_site index pages /\
    map fst pages = ["dist/a.html"; "dist/a.html"] /\
    size (page_files pages) = 1.
Proof.
  split; [by vm_compute|].
  exists (index_page [Sample.entry "a.json" "Animals"; Sample.entry "a.json" "Animals"]),
    (drop 3 (written (main Sample.twice_site))).
  split; [by vm_compute|]. split; by vm_compute.
Qed.

(** C2 on the quiz whose [questions] is the string [oops]. *)
Lemma oops_quiz_valid_but_skipped :
  isValidJsonFile (JStr "q.json") Sample.oops_site
  = Run (Ok true) Sample.oops_site [] /\
  generate_entry (Sample.entry "q.json" "Quiz") Sample.oops_site
  = Run (Ok tt) Sample.oops_site [] /\
  generateAllHtml [Sample.entry "q.json" "Quiz"] Sample.oops_site
  = Run (Ok tt) Sample.oops_site [].
Proof.
  apply (non_array_questions_valid_but_skipped
           Sample.oops_site (Sample.entry "q.json" "Quiz") "q.json"
           (list_to_map [("title", JStr "Quiz"); ("questions", JStr "oops")])
           (JStr "oops")).
  - reflexivity.
  - vm_compute. reflexivity.
  - vm_compute. reflexivity.
  - discriminate.
  - reflexivity.
Defined.



(** Counterexample to C10 as stated: it fails on a document with [null] among the answers of
    a question and an empty title: the renderer skips the document, so that
    rendering it does not fail. *)
Lemma untitled_quiz_is_skipped :
  has_null_answer Sample.untitled_site "u.json" /\
  generate_entry (Sample.entry "u.json" "Untitled") Sample.untitled_site
  = Run (Ok tt) Sample.untitled_site [] /\
  ~ rendering_fails Sample.untitled_site (Sample.entry "u.json" "Untitled").
Proof.
  split; [|split].
  - exists (list_to_map [("title", JStr ""); ("questions", JArr Sample.null_questions)]),
      Sample.null_questions,
      (Js.obj [("question", JStr "Kept"); ("answers", JArr [JNull])]),
      [JNull], JNull.
    split; [by vm_compute|]. split; [by vm_compute|].
    split; [by right; left|]. split; [by vm_compute|].
    split; [by left | by left].
  - by vm_compute.
  - intros [e He]. by vm_compute in He.
Qed.

(** C10, amended, on the quiz with [null] among the answers of a question,
    followed by the quiz of the scenario: rendering the first fails, and the
    page of the second is written. *)
Lemma null_answer_drops_document :
  has_null_answer Sample.nulls_first_site "n.json" /\
  rendering_fails Sample.nulls_first_site (Sample.entry "n.json" "Nulls") /\
  map fst
    (written
       (generateAllHtml
          [Sample.entry "n.json" "Nulls"; Sample.entry "a.json" "Animals"]
          Sample.nulls_first_site))
  = ["dist/a.html"].
Proof.
  assert (has_null_answer Sample.nulls_first_site "n.json") as Hnull.
  { exists (list_to_map [("title", JStr "Nulls");
                         ("questions", JArr Sample.null_questions)]),
      Sample.null_questions,
      (Js.obj [("question", JStr "Kept"); ("answers", JArr [JNull])]),
      [JNull], JNull.
    split; [vm_compute; reflexivity|]. split; [vm_compute; reflexivity|].
    split; [right; left|]. split; [vm_compute; reflexivity|].
    split; [left | left; reflexivity]. }
  destruct (null_answer_fails_whole_document
              Sample.nulls_first_site (Sample.entry "n.json" "Nulls") "n.json"
              eq_refl Hnull) as (Hfails & _ & _ & _ & Hnext).
  split; [exact Hnull|]. split.
  - apply Hfails. exists (JStr "Nulls"), Sample.null_questions.
    split; [reflexivity|]. eexists. split; [vm_compute; reflexivity|].
    split; [vm_compute; reflexivity|]. split; [reflexivity|].
    vm_compute. reflexivity.
  - rewrite (Hnext (Sample.entry "a.json" "Animals") []
               (files (generate_entry (Sample.entry "a.json" "Animals")
                         Sample.nulls_first_site))
               (written (generate_entry (Sample.entry "a.json" "Animals")
                           Sample.nulls_first_site))).
    + vm_compute. reflexivity.
    + vm_compute. reflexivity.
Defined.



(** * Further properties of the program *)

(** ** [isValidJsonFile] and [parseIndexJson] *)

(** X1. [isValidJsonFile] answers without raising and without touching a
    file, and it answers [true] exactly when the path of the quiz file holds
    JSON text for an object whose [questions] is present and not [null]: a
    missing file, an unreadable one, text that is not JSON, an array or any
    other value all give [false]. *)
Theorem isValidJsonFile_exact (file : string) (fs : disk) :
  exists valid : bool,
    isValidJsonFile (JStr file) fs = Run (Ok valid) fs [] /\
    (valid = true <->
     exists props questions,
       fs !! data_key file = Some (File (Json (JObj props))) /\
       props !! "questions" = Some questions /\
       questions <> JNull).
Proof.
  exists (valid_file fs file). split; [apply isValidJsonFile_run|].
  unfold valid_file, document, load. fold (data_key file).
  destruct (fs !! data_key file) as [[|[v|text]]|] eqn:Hkey; simpl;
    try (split; [done | by intros (? & ? & [=] & _)]).
  rewrite ?bool_decide_eq_true_2 by eauto. simpl.
  destruct v as [| | | | | |props]; simpl;
    try (split; [done | by intros (? & ? & [=] & _)]).
  destruct (props !! "questions") as [questions|] eqn:Hq; simpl.
  - split.
    + intros Hnull%negb_true_iff. exists props, questions.
      split; [done|]. split; [done|]. by intros ->.
    + intros (props' & questions' & [= <-] & Hq' & Hne).
      rewrite Hq in Hq'. injection Hq' as <-. by destruct questions.
  - split; [done|]. intros (props' & questions' & [= <-] & Hq' & _).
    by rewrite Hq in Hq'.
Qed.

(** X2. Validating a manifest twice changes nothing: the list
    [parseIndexJson] returns for an array passes through [parseIndexJson]
    unchanged. *)
Theorem parseIndexJson_idempotent (entries : list value) (fs : disk) :
  exists kept,
    parseIndexJson (JArr entries) fs = Run (Ok (Some kept)) fs [] /\
    parseIndexJson (JArr kept) fs = Run (Ok (Some kept)) fs [].
Proof.
  exists (filter well_formed_entry entries).
  split; [apply parseIndexJson_array|].
  rewrite parseIndexJson_array. by rewrite list_filter_filter_l.
Qed.

(** ** [writeHtml] *)

(** X3. On validated entries [writeHtml] does not raise and makes exactly
    one write, to [dist/index.html]: the fixed head of the page, one list item
    per entry in the order given, and the fixed tail. *)
Theorem writeHtml_writes_index (data : list value) (fs : disk) :
  Forall well_formed_entry data ->
  writeHtml data fs
  = Run (Ok tt)
      (<[Path.resolve "dist/index.html" :=
           File (Raw (indexHtml_head +:+ String.concat "" (map link data)
                      +:+ indexHtml_tail))]> fs)
      [("dist/index.html",
        indexHtml_head +:+ String.concat "" (map link data) +:+ indexHtml_tail)].
Proof.
  intros Hall. rewrite (writeHtml_run _ _ Hall). unfold index_page.
  replace (links data) with (String.concat "" (map link data)); [done|].
  clear Hall. induction data as [|entry data IH]; [done|].
  simpl. rewrite <- IH. destruct (map link data); [|done].
  by rewrite append_nil_r.
Qed.

Lemma index_items_throw html data item :
  item ∈ data -> (exists e, index_item item = Throw e) ->
  exists e, index_items html data = Throw e.
Proof.
  intros Hin Hthrow. revert html.
  induction Hin as [item data|item item' data _ IH]; intros html; simpl.
  - destruct Hthrow as [e ->]. by exists e.
  - destruct (index_item item') as [li|e]; simpl; [by apply IH | by exists e].
Qed.

(** X4. [writeHtml] is not guarded by a [try]: given a list in which some
    item has no string [file], it raises an error and writes nothing. *)
Theorem writeHtml_rejects_unvalidated (data : list value) (item : value) (fs : disk) :
  item ∈ data ->
  (forall file, Js.get item "file" <> Ok (JStr file)) ->
  exists e, writeHtml data fs = Run (Throw e) fs [].
Proof.
  intros Hin Hfile.
  destruct (index_items_throw "" data item Hin) as [e He].
  { unfold index_item. destruct (Js.get item "file") as [file|e]; simpl;
      [|by eexists].
    destruct file; simpl; try by eexists. by destruct (Hfile s). }
  exists e. unfold writeHtml. by rewrite He.
Qed.

(** ** [generateAllHtml] *)

Lemma generateAllHtml_no_page entry file rest fs :
  Js.get entry "file" = Ok (JStr file) ->
  written (process file fs) = [] ->
  generateAllHtml (entry :: rest) fs = generateAllHtml rest fs.
Proof.
  intros Hfile Hnone. rewrite (generateAllHtml_cons _ _ _ _ Hfile).
  destruct (process_written file fs) as [Hw | (html & _ & _ & Hw)];
    rewrite Hw in *; [by rewrite after_nil | done].
Qed.

(** X5. An entry for which no page is written (its file is missing or is
    not JSON, its document is skipped, building its page raised an error, or
    the write failed) leaves the loop exactly as if the entry were not in the
    list: the entries after it are processed on the same file system. *)
Theorem entry_without_page_has_no_effect
    (entry : value) (file : string) (rest : list value) (fs : disk) :
  Js.get entry "file" = Ok (JStr file) ->
  written (generate_entry entry fs) = [] ->
  generateAllHtml (entry :: rest) fs = generateAllHtml rest fs.
Proof.
  intros Hfile Hnone. apply (generateAllHtml_no_page _ file); [done|].
  by rewrite <- (generate_entry_written _ _ _ Hfile).
Qed.

(** X6. Given entries that each have a string [file], [generateAllHtml]
    never raises, whatever the quiz files hold; it writes at most one page per
    entry, and each page goes to [dist/] followed by the entry's file name
    after [replace]. *)
Theorem generateAllHtml_contains_failures (entries : list value) (fs : disk) :
  Forall (fun entry => exists file, Js.get entry "file" = Ok (JStr file)) entries ->
  returned (generateAllHtml entries fs) = Ok tt /\
  length (written (generateAllHtml entries fs)) <= length entries /\
  forall p html, (p, html) ∈ written (generateAllHtml entries fs) ->
    exists entry file,
      entry ∈ entries /\
      Js.get entry "file" = Ok (JStr file) /\
      p = "dist/" +:+ Str.replace ".json" ".html" file.
Proof.
  intros Hall. revert fs.
  induction Hall as [|entry rest [file Hfile] _ IH]; intros fs.
  { split; [done|]. split; [done|]. intros p html Hin.
    by apply elem_of_nil in Hin. }
  rewrite (generateAllHtml_cons _ _ _ _ Hfile). simpl.
  destruct (IH (files (process file fs))) as (Hret & Hlen & Hpaths).
  split; [done|].
  destruct (process_written file fs) as [Hw | (html & _ & _ & Hw)];
    rewrite Hw in *; simpl in *.
  - split; [lia|]. intros p html Hin.
    destruct (Hpaths p html Hin) as (e & f & He & Hf & ->).
    exists e, f. split; [by right|done].
  - split; [lia|]. intros p html' [[= -> ->] | Hin]%elem_of_cons.
    + exists entry, file. split; [by left|done].
    + destruct (Hpaths p html' Hin) as (e & f & He & Hf & ->).
      exists e, f. split; [by right|done].
Qed.

(** X7. The [catch] block of [generateAllHtml] reads [entry.file] for its
    message: when an entry is [null] (or [undefined]), the error raised in
    the [try] block is raised again there, and the loop stops with nothing
    written and no later entry processed. *)
Theorem generateAllHtml_null_entry (entry : value) (rest : list value) (fs : disk) :
  nullish entry ->
  generateAllHtml (entry :: rest) fs = Run (Throw TypeError) fs [].
Proof. by intros [-> | ->]. Qed.

Lemma build_not_skipped title questions : build title questions <> Ok None.
Proof.
  unfold build, page.
  destruct (R.filter has_answers questions) as [validQuestions|]; [|done].
  simpl. destruct (R.map card validQuestions) as [cards|]; [|done].
  simpl. by destruct (Js.toString title).
Qed.

Lemma render_skips fileContent :
  render fileContent = Ok None <->
  ~ exists props title questions,
      fileContent = JObj props /\
      props !! "title" = Some title /\
      Js.truthy title = true /\
      props !! "questions" = Some (JArr questions).
Proof.
  split.
  - intros Hrender (props & title & questions & -> & Ht & Htruthy & Hq).
    rewrite (render_accepted _ _ _ Ht Hq Htruthy) in Hrender.
    by apply build_not_skipped in Hrender.
  - intros Hno. destruct fileContent as [| | | | | |props];
      try (by apply render_not_object).
    destruct (props !! "questions") as [questions|] eqn:Hq.
    + destruct (Js.isArray questions) eqn:Harray;
        [|by apply (render_skipped _ questions)].
      destruct questions as [| | | | |items|]; try done.
      unfold render. rewrite is_invalid_structure_object, Hq.
      destruct (props !! "title") as [title|] eqn:Ht; simpl; [|done].
      rewrite ?bool_decide_eq_true_2 by eauto. simpl. rewrite ?Ht, ?Hq. simpl.
      destruct (Js.truthy title) eqn:Htruthy; [|done].
      destruct Hno. by exists props, title, items.
    + unfold render. rewrite is_invalid_structure_object, Hq. simpl.
      by rewrite orb_true_r.
Qed.

Lemma document_object fs file props :
  document fs file = JObj props <->
  fs !! data_key file = Some (File (Json (JObj props))).
Proof.
  unfold document, load. fold (data_key file).
  destruct (fs !! data_key file) as [[|[v|text]]|]; split; try done.
  - by intros ->.
  - by intros [= ->].
Qed.

(** X8. The renderer skips an entry's document, ending normally with
    nothing written, exactly when the quiz file does not hold an object with
    a truthy [title] and an array [questions]: in every other case it either
    writes the page or raises an error. *)
Theorem renderer_skips_exactly (entry : value) (file : string) (fs : disk) :
  Js.get entry "file" = Ok (JStr file) ->
  generate_entry entry fs = Run (Ok tt) fs [] <->
  ~ exists title questions, accepted fs entry file title questions.
Proof.
  intros Hfile. rewrite (generate_entry_run _ _ _ Hfile).
  transitivity (render (document fs file) = Ok None).
  - unfold emit. destruct (render (document fs file)) as [[html|]|e];
      try done.
    unfold fs_writeFile. by case_decide.
  - rewrite render_skips. split; intros Hno Hyes; apply Hno.
    + destruct Hyes as (title & questions & _ & props & Hkey & Ht & Htr & Hq).
      exists props, title, questions. by rewrite document_object.
    + destruct Hyes as (props & title & questions & Hdoc & Ht & Htr & Hq).
      exists title, questions. split; [done|]. exists props.
      by rewrite <- document_object.
Qed.

(** ** [main] *)

(** X9. [main] never ends with an error, whatever the file system holds:
    what [parseIndexJson] lets through is enough for [writeHtml] and for the
    [catch] block of [generateAllHtml] not to raise. *)
Theorem main_never_throws (fs : disk) : returned (main fs) = Ok tt.
Proof.
  destruct (Js.isArray (load fs INDEX_PATH)) eqn:Harray.
  - destruct (load fs INDEX_PATH) as [| | | | |entries|] eqn:Hindex; try done.
    rewrite (main_run_array _ _ Hindex). simpl.
    apply generateAllHtml_returns, chosen_well_formed.
  - by rewrite (main_run_no_array _ Harray).
Qed.

Lemma links_concat data : links data = String.concat "" (map link data).
Proof.
  induction data as [|entry data IH]; [done|].
  simpl. rewrite IH. destruct (map link data); [|done].
  by rewrite append_nil_r.
Qed.

(** X10. For a manifest that is an array, the index page holds the list
    items of exactly the entries that pass both validators, in manifest
    order, between the fixed head and tail; an entry that fails either
    validator has no item. *)
Theorem index_lists_exactly_valid_entries (fs : disk) (entries : list value) :
  readJson INDEX_PATH fs = Run (Ok (JArr entries)) fs [] ->
  exists pages,
    written (main fs)
    = [("dist/styles.css", cssContent); ("dist/script.js", jsContent);
       ("dist/index.html",
        indexHtml_head
        +:+ String.concat "" (map link (valid_entries fs entries))
        +:+ indexHtml_tail)] ++ pages.
Proof.
  intros Hindex%index_json_loaded.
  destruct (main_run_valid _ _ Hindex) as (fs' & Hmain & _).
  eexists. rewrite Hmain, written_after. unfold index_page.
  by rewrite links_concat.
Qed.

Lemma generateAllHtml_files entries fs k :
  Forall well_formed_entry entries ->
  (forall entry, entry ∈ entries ->
     k <> Path.resolve (output_path (file_name entry))) ->
  files (generateAllHtml entries fs) !! k = fs !! k.
Proof.
  intros Hall. revert fs.
  induction Hall as [|entry rest Hentry _ IH]; intros fs Hk; [done|].
  destruct (well_formed_fields _ Hentry) as (Hfile & _ & _).
  rewrite (generateAllHtml_cons _ _ _ _ Hfile). simpl.
  rewrite IH by (intros e He; apply Hk; by right).
  destruct (process_written (file_name entry) fs)
    as [Hw | (html & _ & _ & Hw)]; rewrite Hw; simpl; [done|].
  apply lookup_insert_ne. symmetry. apply Hk. by left.
Qed.

Lemma main_files fs k :
  k <> Path.resolve css_path ->
  k <> Path.resolve js_path ->
  k <> Path.resolve index_path ->
  (forall entries entry,
     load fs INDEX_PATH = JArr entries ->
     entry ∈ valid_entries fs entries ->
     k <> Path.resolve (output_path (file_name entry))) ->
  files (main fs) !! k = fs !! k.
Proof.
  intros Hcss Hjs Hindex Hpages.
  assert (assets fs !! k = fs !! k) as Hassets
    by (unfold assets; by rewrite !lookup_insert_ne).
  destruct (Js.isArray (load fs INDEX_PATH)) eqn:Harray.
  - destruct (load fs INDEX_PATH) as [| | | | |entries|] eqn:Hload; try done.
    rewrite (main_run_array _ _ Hload). simpl.
    rewrite generateAllHtml_files.
    + by rewrite lookup_insert_ne.
    + apply chosen_well_formed.
    + intros entry Hin. apply (Hpages entries); [done|].
      by rewrite valid_entries_chosen, <- chosen_assets.
  - by rewrite (main_run_no_array _ Harray).
Qed.

(** X11. [main] changes the file system only at the places it writes: a
    path that is neither one of the two assets, nor the index page, nor the
    page of an entry that passes both validators holds after the run what it
    held before. *)
Theorem main_leaves_other_files (fs : disk) (k : string) :
  k <> Path.resolve "dist/styles.css" ->
  k <> Path.resolve "dist/script.js" ->
  k <> Path.resolve "dist/index.html" ->
  (forall entries entry,
     readJson INDEX_PATH fs = Run (Ok (JArr entries)) fs [] ->
     entry ∈ valid_entries fs entries ->
     k <> Path.resolve (output_path (file_name entry))) ->
  files (main fs) !! k = fs !! k.
Proof.
  intros Hcss Hjs Hindex Hpages. apply main_files; try done.
  intros entries entry Hload. apply Hpages.
  by rewrite readJson_run, Hload.
Qed.

(** A run leaves the directories as they were. *)
Lemma main_dirs fs dir : has_dir (files (main fs)) dir <-> has_dir fs dir.
Proof.
  destruct (Js.isArray (load fs INDEX_PATH)) eqn:Harray.
  - destruct (load fs INDEX_PATH) as [| | | | |entries|] eqn:Hindex; try done.
    rewrite (main_run_array _ _ Hindex). simpl.
    rewrite generateAllHtml_dirs by apply chosen_well_formed.
    apply staged_dirs.
  - rewrite (main_run_no_array _ Harray). simpl. unfold assets.
    rewrite !has_dir_write; [done|apply has_dir_dist..].
Qed.

Lemma manifest_entries_well_formed fs : Forall well_formed_entry (manifest_entries fs).
Proof.
  unfold manifest_entries. destruct (load fs INDEX_PATH); try done.
  apply Forall_forall. intros entry Hin.
  by apply list_elem_of_filter in Hin as [? _].
Qed.

(** X12. Running [main] again on the file system the first run left makes
    the same writes as the first run, provided no page of the first run went
    to a path ending in [.json] (which happens only for a quiz file whose name
    holds [.json] before its suffix). *)
Theorem second_run_writes_the_same (fs : disk) :
  (forall entries entry,
     readJson INDEX_PATH fs = Run (Ok (JArr entries)) fs [] ->
     entry ∈ valid_entries fs entries ->
     Str.endsWith (Path.resolve (output_path (file_name entry))) ".json" = false) ->
  written (main (files (main fs))) = written (main fs).
Proof.
  intros Hpages.
  assert (forall k, Str.endsWith k ".json" = true ->
            files (main fs) !! k = fs !! k) as Hkept.
  { intros k Hk. apply main_files.
    - intros ->. by vm_compute in Hk.
    - intros ->. by vm_compute in Hk.
    - intros ->. by vm_compute in Hk.
    - intros entries entry Hload Hin Heq.
      specialize (Hpages entries entry). rewrite readJson_run, Hload in Hpages.
      specialize (Hpages eq_refl Hin). by rewrite <- Heq, Hk in Hpages. }
  apply main_agree.
  - split; [by apply Hkept|].
    eapply Forall_impl; [apply manifest_entries_well_formed|]. simpl.
    intros entry (_ & _ & Hjson)%well_formed_fields.
    by apply Hkept, endsWith_true, data_key_json.
  - apply Forall_forall. intros entry _.
    unfold reachable. apply Forall_proper; [|done].
    intros dir. apply main_dirs.
Qed.

Lemma filter_all {A} (P : A -> Prop) `{!forall x, Decision (P x)} (l : list A) :
  Forall P l -> filter P l = l.
Proof.
  induction 1 as [|x l Hx _ IH]; [done|].
  by rewrite filter_cons_True, IH.
Qed.

Lemma valid_entry_not_manifest fs entries entry :
  load fs INDEX_PATH = JArr entries ->
  valid_file fs (file_name entry) = true ->
  data_key (file_name entry) <> Path.resolve INDEX_PATH.
Proof.
  intros Hload Hvalid Hkey. unfold valid_file, document, load in Hvalid.
  unfold load in Hload. fold (data_key (file_name entry)) in Hvalid.
  rewrite Hkey in Hvalid.
  change (Path.resolve (Path.resolve INDEX_PATH))
    with (Path.resolve INDEX_PATH) in Hload.
  destruct (fs !! Path.resolve INDEX_PATH) as [[|[v|text]]|]; try done.
  subst v. simpl in Hvalid. by rewrite ?andb_false_r in Hvalid.
Qed.

(** X13. The entries that fail a validator have no part in what is
    written: replacing the manifest by the list of the entries that pass both
    validators gives a run with the same writes. *)
Theorem invalid_entries_change_nothing (fs : disk) (entries : list value) :
  readJson INDEX_PATH fs = Run (Ok (JArr entries)) fs [] ->
  written
    (main (<[Path.resolve INDEX_PATH :=
               File (Json (JArr (valid_entries fs entries)))]> fs))
  = written (main fs).
Proof.
  intros Hload%index_json_loaded.
  set (kept := valid_entries fs entries).
  set (fs' := <[Path.resolve INDEX_PATH := File (Json (JArr kept))]> fs).
  assert (load fs' INDEX_PATH = JArr kept) as Hload'.
  { unfold load, fs'.
    change (Path.resolve (Path.resolve INDEX_PATH))
      with (Path.resolve INDEX_PATH).
    by rewrite lookup_insert_eq. }
  assert (Forall (fun entry =>
            well_formed_entry entry /\
            valid_file fs (file_name entry) = true /\
            fs' !! data_key (file_name entry) = fs !! data_key (file_name entry))
            kept) as Hkept.
  { apply Forall_forall. intros entry Hin.
    unfold kept in Hin. rewrite valid_entries_chosen in Hin.
    apply list_elem_of_filter in Hin as [Hvalid [Hwf _]%list_elem_of_filter].
    split; [done|]. split; [done|].
    apply lookup_insert_ne, not_eq_sym.
    by apply (valid_entry_not_manifest fs entries). }
  assert (chosen fs' kept = kept) as Hchosen.
  { unfold chosen. rewrite !filter_all; [done|..].
    - by eapply Forall_impl; [exact Hkept|]; intros ? (? & _ & _).
    - rewrite filter_all by
        (by eapply Forall_impl; [exact Hkept|]; intros ? (? & _ & _)).
      eapply Forall_impl; [exact Hkept|]. simpl.
      intros entry (_ & Hvalid & Hsame).
      by rewrite (valid_file_same _ _ _ Hsame). }
  rewrite (main_run_array _ _ Hload'), (main_run_array _ _ Hload).
  rewrite !chosen_assets, Hchosen.
  fold kept. rewrite <- (valid_entries_chosen fs entries). fold kept.
  rewrite !written_after. f_equal.
  apply generateAllHtml_agree_on.
  - by eapply Forall_impl; [exact Hkept|]; intros ? (? & _ & _).
  - eapply Forall_impl; [exact Hkept|]. simpl.
    intros entry (_ & _ & Hsame). unfold assets.
    rewrite !lookup_insert. by repeat case_decide.
  - apply Forall_forall. intros entry _. rewrite !staged_reachable.
    apply reachable_write. right; right. exists (Path.resolve INDEX_PATH).
    split; [|done]. rewrite load_index in Hload.
    by destruct (fs !! Path.resolve INDEX_PATH).
Qed.

(** ** Names with one [.json] *)

(** X14. For an entry whose file name holds [.json] only as its suffix,
    the link of the index page points at the name with [.html] in place of
    [.json], and that is also where under [dist/] the page goes when one is
    written. *)
Theorem plain_name_gets_html (item : value) (stem title : string) :
  Js.get item "file" = Ok (JStr (stem +:+ ".json")) ->
  Js.get item "title" = Ok (JStr title) ->
  (forall pre post, stem +:+ ".json" = pre +:+ ".json" +:+ post -> pre = stem) ->
  index_item item
  = Ok ("<li><a href=" +:+ Str.dq +:+ (stem +:+ ".html") +:+ Str.dq +:+ ">"
        +:+ title +:+ "</a></li>" +:+ Str.nl) /\
  forall fs,
    written (generate_entry item fs) = [] \/
    exists html,
      written (generate_entry item fs) = [("dist/" +:+ stem +:+ ".html", html)].
Proof.
  intros Hfile Htitle Honly. split.
  - unfold index_item. rewrite Hfile, Htitle. simpl.
    by rewrite (replace_only_suffix _ _ _ Honly).
  - intros fs. rewrite (generate_entry_run _ _ _ Hfile). unfold emit.
    destruct (render _) as [[html|]|e]; [|by left..].
    unfold fs_writeFile. case_decide; [right | by left].
    exists html. simpl. unfold output_path.
    by rewrite (replace_only_suffix _ _ _ Honly).
Qed.

(** ** Validation and rendering *)

(** X15. The renderer asks for more than [isValidJsonFile] does: whenever
    a page is written for an entry, [isValidJsonFile] answers [true] for its
    file on the same file system, so the validation of [main] never holds back
    a quiz that would have been rendered. *)
Theorem rendered_entry_is_valid (entry : value) (file : string) (fs : disk) :
  Js.get entry "file" = Ok (JStr file) ->
  written (generate_entry entry fs) <> [] ->
  isValidJsonFile (JStr file) fs = Run (Ok true) fs [].
Proof.
  intros Hfile Hpage. rewrite (generate_entry_run _ _ _ Hfile) in Hpage.
  rewrite isValidJsonFile_run. unfold valid_file.
  destruct (document fs file) as [| | | | | |props] eqn:Hdoc;
    try (by rewrite render_not_object in Hpage).
  pose proof (proj1 (document_object _ _ _) Hdoc) as Hkey.
  rewrite bool_decide_eq_true_2 by eauto. simpl.
  destruct (props !! "questions") as [questions|] eqn:Hq.
  - destruct (Js.isArray questions) eqn:Harray.
    + by destruct questions.
    + by rewrite (render_skipped _ _ Hq Harray) in Hpage.
  - exfalso. apply Hpage. unfold render.
    rewrite is_invalid_structure_object, Hq. simpl. by rewrite orb_true_r.
Qed.

(** ** Pages and their directories *)

(** X16. A page that is built is still not written when a directory on the
    way to it is missing (the program creates [dist] only): the write fails
    inside the [try] block, nothing is written, and the loop goes on with the
    next entry. *)
Theorem unreachable_page_is_dropped
    (fs : disk) (entry : value) (file : string)
    (title : value) (questions : list value) :
  accepted fs entry file title questions ->
  is_printable title = true ->
  forallb question_ok questions = true ->
  ~ reachable fs (output_path file) ->
  generate_entry entry fs = Run (Throw IOError) fs [] /\
  forall rest, generateAllHtml (entry :: rest) fs = generateAllHtml rest fs.
Proof.
  intros (Hfile & props & Hstored & Ht & Htruthy & Hqs) Hprint Hok Hdir.
  destruct (build_ok title questions Hprint Hok)
    as (cards & html & _ & _ & Hbuild).
  assert (render (document fs file) = Ok (Some html)) as Hrender.
  { rewrite (document_stored _ _ _ Hstored).
    by rewrite (render_accepted _ title questions). }
  split.
  - rewrite (generate_entry_run _ file), Hrender by done.
    by apply fs_writeFile_fails.
  - intros rest. rewrite (generateAllHtml_cons _ file) by done.
    unfold process. rewrite Hrender, decide_False by done.
    by rewrite after_nil.
Qed.

Lemma plain_cons sep c w :
  Str.split sep (String c w) = [String c w] <->
  c <> sep /\ Str.split sep w = [w].
Proof.
  split; [apply split_plain_inv|].
  intros [Hc Hw]. simpl. by rewrite decide_False, Hw.
Qed.

Lemma plain_app sep s t :
  Str.split sep s = [s] -> Str.split sep t = [t] ->
  Str.split sep (s +:+ t) = [s +:+ t].
Proof.
  intros Hs Ht. induction s as [|c s IH]; [done|].
  apply plain_cons in Hs as [Hc Hs].
  rewrite append_cons. apply plain_cons. auto.
Qed.

Lemma plain_drop sep n s :
  Str.split sep s = [s] -> Str.split sep (Str.drop n s) = [Str.drop n s].
Proof.
  revert s. induction n as [|n IH]; intros s Hs; [by destruct s|].
  destruct s as [|c s]; [done|].
  apply plain_cons in Hs as [_ Hs]. simpl. by apply IH.
Qed.

Lemma plain_replace sep pat rep s :
  Str.split sep rep = [rep] -> Str.split sep s = [s] ->
  Str.split sep (Str.replace pat rep s) = [Str.replace pat rep s].
Proof.
  intros Hrep. induction s as [|c s IH]; intros Hs; rewrite replace_unfold;
    destruct (String.prefix pat _);
    try (by apply plain_app; [|apply plain_drop]); [done|].
  apply plain_cons in Hs as [Hc Hs]. apply plain_cons. auto.
Qed.

(** X17. The page of a quiz file whose name has no directory part goes to
    [dist/] itself, which is there for every write: the page can always be
    written. *)
Theorem flat_name_reachable (fs : disk) (file : string) :
  flat file -> reachable fs (output_path file).
Proof.
  intros Hflat. unfold reachable, output_path.
  change ("dist/" +:+ Str.replace ".json" ".html" file)
    with ("dist" +:+ String "/" (Str.replace ".json" ".html" file)).
  rewrite split_app_plain by done.
  rewrite (plain_replace "/" ".json" ".html" file) by done.
  simpl. constructor; [apply has_dir_dist|].
  by repeat case_decide.
Qed.

(** ** The further properties at the sample sites *)

(** X3 on the manifest of the sample site. *)
Lemma sample_index_written :
  Forall well_formed_entry [Sample.entry "a.json" "Animals"] /\
  writeHtml [Sample.entry "a.json" "Animals"] Sample.site
  = Run (Ok tt)
      (<[Path.resolve "dist/index.html" :=
           File (Raw (indexHtml_head
                      +:+ String.concat "" (map link [Sample.entry "a.json" "Animals"])
                      +:+ indexHtml_tail))]> Sample.site)
      [("dist/index.html",
        indexHtml_head
        +:+ String.concat "" (map link [Sample.entry "a.json" "Animals"])
        +:+ indexHtml_tail)].
Proof.
  assert (Forall well_formed_entry [Sample.entry "a.json" "Animals"]) as Hall.
  { apply (bool_decide_unpack _). vm_compute. exact I. }
  split; [exact Hall|].
  exact (writeHtml_writes_index _ Sample.site Hall).
Defined.

(** X4 on a list whose second item has a number for its [file]. *)
Lemma number_file_rejected :
  exists e,
    writeHtml
      [Sample.entry "a.json" "Animals";
       Js.obj [("file", JNum "5"); ("title", JStr "Five")]]
      Sample.site
    = Run (Throw e) Sample.site [].
Proof.
  apply (writeHtml_rejects_unvalidated _
           (Js.obj [("file", JNum "5"); ("title", JStr "Five")])).
  - right. left.
  - intros file Hfile. vm_compute in Hfile. discriminate Hfile.
Defined.

(** X5 on an entry whose file is missing, before the entry of the sample
    quiz. *)
Lemma missing_file_has_no_effect :
  written (generate_entry (Sample.entry "gone.json" "Gone") Sample.site) = [] /\
  generateAllHtml
    [Sample.entry "gone.json" "Gone"; Sample.entry "a.json" "Animals"]
    Sample.site
  = generateAllHtml [Sample.entry "a.json" "Animals"] Sample.site.
Proof.
  assert (written (generate_entry (Sample.entry "gone.json" "Gone") Sample.site)
          = []) as Hnone by (vm_compute; reflexivity).
  split; [exact Hnone|].
  apply (entry_without_page_has_no_effect _ "gone.json"); [reflexivity|].
  exact Hnone.
Defined.

(** X6 on a complete quiz, a skipped quiz and a missing file. *)
Lemma mixed_entries_contained :
  returned
    (generateAllHtml
       [Sample.entry "a.json" "Animals"; Sample.entry "q.json" "Quiz";
        Sample.entry "gone.json" "Gone"] Sample.mixed_site) = Ok tt /\
  length
    (written
       (generateAllHtml
          [Sample.entry "a.json" "Animals"; Sample.entry "q.json" "Quiz";
           Sample.entry "gone.json" "Gone"] Sample.mixed_site)) = 1.
Proof.
  destruct (generateAllHtml_contains_failures
              [Sample.entry "a.json" "Animals"; Sample.entry "q.json" "Quiz";
               Sample.entry "gone.json" "Gone"] Sample.mixed_site)
    as (Hreturned & _ & _).
  - repeat constructor; eexists; reflexivity.
  - split; [exact Hreturned|]. vm_compute. reflexivity.
Defined.

(** X7 on [null] before the entry of the sample quiz. *)
Lemma null_entry_stops_loop :
  generateAllHtml [JNull; Sample.entry "a.json" "Animals"] Sample.site
  = Run (Throw TypeError) Sample.site [].
Proof.
  apply generateAllHtml_null_entry. left. reflexivity.
Defined.

(** X8 on the quiz whose [questions] is a string. *)
Lemma oops_quiz_skipped_exactly :
  generate_entry (Sample.entry "q.json" "Quiz") Sample.oops_site
  = Run (Ok tt) Sample.oops_site [] <->
  ~ exists title questions,
      accepted Sample.oops_site (Sample.entry "q.json" "Quiz") "q.json"
        title questions.
Proof.
  apply renderer_skips_exactly. reflexivity.
Defined.

(** X10 on the manifest of four elements. *)
Lemma mixed_site_index :
  exists pages,
    written (main Sample.mixed_site)
    = [("dist/styles.css", cssContent); ("dist/script.js", jsContent);
       ("dist/index.html",
        indexHtml_head
        +:+ String.concat ""
              (map link (valid_entries Sample.mixed_site Sample.mixed_manifest))
        +:+ indexHtml_tail)] ++ pages.
Proof.
  apply index_lists_exactly_valid_entries. vm_compute. reflexivity.
Defined.

(** X11 on the quiz file of the sample site. *)
Lemma sample_quiz_file_kept :
  files (main Sample.site) !! "/data/a.json" = Sample.site !! "/data/a.json".
Proof.
  apply main_leaves_other_files.
  - intros Heq. vm_compute in Heq. discriminate Heq.
  - intros Heq. vm_compute in Heq. discriminate Heq.
  - intros Heq. vm_compute in Heq. discriminate Heq.
  - intros entries entry Hload Hin Heq.
    vm_compute in Hload. injection Hload as <-.
    replace (valid_entries Sample.site [Sample.entry "a.json" "Animals"])
      with [Sample.entry "a.json" "Animals"] in Hin
      by (vm_compute; reflexivity).
    apply list_elem_of_singleton in Hin. rewrite Hin in Heq.
    vm_compute in Heq. discriminate Heq.
Defined.

(** X12 on the sample site. *)
Lemma sample_second_run :
  written (main (files (main Sample.site))) = written (main Sample.site).
Proof.
  apply second_run_writes_the_same.
  intros entries entry Hload Hin.
  vm_compute in Hload. injection Hload as <-.
  replace (valid_entries Sample.site [Sample.entry "a.json" "Animals"])
    with [Sample.entry "a.json" "Animals"] in Hin
    by (vm_compute; reflexivity).
  apply list_elem_of_singleton in Hin. rewrite Hin.
  vm_compute. reflexivity.
Defined.

(** X13 on the manifest of four elements. *)
Lemma mixed_site_stripped :
  written
    (main (<[Path.resolve INDEX_PATH :=
               File (Json (JArr (valid_entries Sample.mixed_site
                                   Sample.mixed_manifest)))]>
             Sample.mixed_site))
  = written (main Sample.mixed_site).
Proof.
  apply invalid_entries_change_nothing. vm_compute. reflexivity.
Defined.

(** X14 on [geo.json]. *)
Lemma geo_gets_html :
  index_item (Sample.entry "geo.json" "Geography")
  = Ok ("<li><a href=" +:+ Str.dq +:+ ("geo" +:+ ".html") +:+ Str.dq +:+ ">"
        +:+ "Geography" +:+ "</a></li>" +:+ Str.nl) /\
  forall fs,
    written (generate_entry (Sample.entry "geo.json" "Geography") fs) = [] \/
    exists html,
      written (generate_entry (Sample.entry "geo.json" "Geography") fs)
      = [("dist/" +:+ "geo" +:+ ".html", html)].
Proof.
  apply plain_name_gets_html.
  - reflexivity.
  - reflexivity.
  - intros pre post Heq. change ("geo" +:+ ".json") with "geo.json" in Heq.
    repeat (destruct pre as [|? pre];
            [first [reflexivity | vm_compute in Heq; discriminate Heq]
            |rewrite append_cons in Heq;
             first [discriminate Heq | injection Heq as <- Heq]]).
Defined.

(** X15 on the sample quiz. *)
Lemma sample_quiz_rendered_and_valid :
  written (generate_entry (Sample.entry "a.json" "Animals") Sample.site) <> [] /\
  isValidJsonFile (JStr "a.json") Sample.site = Run (Ok true) Sample.site [].
Proof.
  assert (written (generate_entry (Sample.entry "a.json" "Animals") Sample.site)
          <> []) as Hpage by (vm_compute; discriminate).
  split; [exact Hpage|].
  exact (rendered_entry_is_valid (Sample.entry "a.json" "Animals") "a.json"
           Sample.site eq_refl Hpage).
Defined.

(** X16 on the quiz file in a directory of its own. *)
Lemma nested_page_is_dropped :
  generate_entry (Sample.entry "sub/a.json" "Animals") Sample.nested_site
  = Run (Throw IOError) Sample.nested_site [] /\
  forall rest,
    generateAllHtml (Sample.entry "sub/a.json" "Animals" :: rest) Sample.nested_site
    = generateAllHtml rest Sample.nested_site.
Proof.
  apply (unreachable_page_is_dropped Sample.nested_site
           (Sample.entry "sub/a.json" "Animals") "sub/a.json"
           (JStr "Animals")
           [Js.obj [("question", JStr "Cat or dog?");
                    ("answers", JArr [Sample.answer "Cat" true;
                                      Sample.answer "Dog" false])]]).
  - split; [reflexivity|]. eexists. split; [vm_compute; reflexivity|].
    split; [vm_compute; reflexivity|]. split; [reflexivity|].
    vm_compute. reflexivity.
  - reflexivity.
  - reflexivity.
  - apply (bool_decide_eq_false_1 _). vm_compute. reflexivity.
Defined.

(** X17 on the sample quiz. *)
Lemma sample_page_reachable : reachable Sample.site (output_path "a.json").
Proof. apply flat_name_reachable. reflexivity. Defined.
